(** * dir_server: a file-sharing HTTP handler, embedded and verified

  The development follows [server.py]: the paginated, searchable
  directory listing, the directory-size cache, the on-demand zip
  builder, the chunked content streamer, the request router and the
  start-up loop.

  Python [str] and [bytes] values are modelled by [string], read as
  the UTF-8 bytes of the text.  The characters the server treats
  specially are all ASCII, and ASCII bytes never occur inside a
  multi-byte UTF-8 sequence, so replacing, splitting and comparing
  bytes agrees with doing so on code points.  Python integers are
  [Z]; floats that only ever hold a byte count divided by a power of
  1024 are exact rationals [Q]. *)

From Stdlib Require Import ZArith QArith Qround Ascii String List Lia DecimalString.
From Stdlib Require Import Sorting.Sorted.
From stdpp Require Import base strings list gmap.
From Equations Require Import Equations.
From Stdlib Require DecimalPos.

Open Scope Z_scope.

(** ** Platform primitives

  What the interpreter and the operating system supply, and what no
  property below depends on beyond its type. *)

Record tm := mk_tm {
tm_year : Z; tm_mon : Z; tm_mday : Z;
tm_hour : Z; tm_min : Z; tm_sec : Z
}.

Class Platform := {
(** [str.lower] *)
lower : string → string;
(** [datetime.fromtimestamp], the local-time break-down of a timestamp *)
localtime : Z → tm;
(** [os.getpid] *)
getpid : Z;
(** [sys.getfilesystemencoding] *)
getfilesystemencoding : string;
(** the module-level flag set by [try: import markdown] *)
MARKDOWN_AVAILABLE : bool;
(** [markdown.markdown(text, extensions=[...])] *)
markdown : string → string;
(** whether the strict UTF-8 codec decodes these bytes *)
utf8_valid : string → bool;
(** the module-level flag that [start_serve] clears when the static
    directory is missing *)
ENABLE_SYNTAX_HIGHLIGHTING : bool;
(** [zipfile]: the local record of one member, from its archive name
    and its bytes, and the central directory that closes an archive *)
zip_local_record : string → string → string;
zip_central_directory : list (string * string) → string
}.

(** ** Python string primitives *)

Module PyStr.

Definition dquote : ascii := "034".
Definition DQ : string := String dquote "".

Fixpoint has_char (c : ascii) (s : string) : bool :=
  match s with
  | "" => false
  | String d r => Ascii.eqb d c || has_char c r
  end.

(** [sub in s] *)
Fixpoint contains (sub s : string) : bool :=
  String.prefix sub s ||
  match s with
  | "" => false
  | String _ r => contains sub r
  end.

(** [s.replace(old, new)] for a one-character [old] *)
Fixpoint replace_char (old : ascii) (new s : string) : string :=
  match s with
  | "" => ""
  | String c r =>
      if Ascii.eqb c old then new +:+ replace_char old new r
      else String c (replace_char old new r)
  end.

(** [''.join(parts)] *)
Definition join (parts : list string) : string := String.concat "" parts.


(** [s.rfind(c)], -1 when absent *)
Fixpoint rfind_from (c : ascii) (s : string) (i last : Z) : Z :=
  match s with
  | "" => last
  | String d r => rfind_from c r (i + 1) (if Ascii.eqb d c then i else last)
  end.
Definition rfind (c : ascii) (s : string) : Z := rfind_from c s 0 (-1).

(** [s[:n]] and [s[n:]] for a natural [n] *)
Fixpoint str_take (n : nat) (s : string) : string :=
  match n, s with
  | S n, String c r => String c (str_take n r)
  | _, _ => ""
  end.
Fixpoint str_drop (n : nat) (s : string) : string :=
  match n, s with
  | S n, String _ r => str_drop n r
  | _, _ => s
  end.

(** [s[i:]] and [s[i:j]] for [0 <= i <= j] *)
Definition from_index (i : Z) (s : string) : string := str_drop (Z.to_nat i) s.
Definition between (i j : Z) (s : string) : string :=
  str_take (Z.to_nat (j - i)) (str_drop (Z.to_nat i) s).

(** [str(n)] and [f'{n}'] for an integer *)
Definition str_of_int (n : Z) : string := NilZero.string_of_int (Z.to_int n).

(** [s.zfill(width)] for an unsigned digit string *)
Definition zfill (width : nat) (s : string) : string :=
  String.concat "" (replicate (width - String.length s) "0") +:+ s.

(** [str.lower] restricted to ASCII letters: Python's on ASCII text. *)
Definition ascii_lower_char (c : ascii) : ascii :=
  let n := N_of_ascii c in
  if ((65 <=? n) && (n <=? 90))%N then ascii_of_N (n + 32) else c.
Fixpoint ascii_lower (s : string) : string :=
  match s with
  | "" => ""
  | String c r => String (ascii_lower_char c) (ascii_lower r)
  end.

(** *** [html.escape] *)
Definition escape (s : string) (quote : bool) : string :=
  let s := replace_char "&" "&amp;" s in
  let s := replace_char "<" "&lt;" s in
  let s := replace_char ">" "&gt;" s in
  if quote then
    let s := replace_char dquote "&quot;" s in
    replace_char "'" "&#x27;" s
  else s.

(** *** [urllib.parse.quote] with the default [safe='/'] *)
Definition is_alnum (c : ascii) : bool :=
  let n := N_of_ascii c in
  (((48 <=? n) && (n <=? 57)) || ((65 <=? n) && (n <=? 90))
   || ((97 <=? n) && (n <=? 122)))%N.
Definition always_safe (c : ascii) : bool :=
  is_alnum c || has_char c "_.-~".
Definition hex_digit (n : N) : ascii :=
  if (n <? 10)%N then ascii_of_N (48 + n) else ascii_of_N (55 + n).
Definition percent_encode (c : ascii) : string :=
  let n := N_of_ascii c in
  String "%" (String (hex_digit (n / 16)) (String (hex_digit (n mod 16)) "")).
Fixpoint quote (s : string) : string :=
  match s with
  | "" => ""
  | String c r =>
      (if always_safe c || Ascii.eqb c "/" then String c "" else percent_encode c)
      +:+ quote r
  end.

End PyStr.

(** ** Query strings: [urllib.parse.parse_qs] and [int(str)] *)

Module Query.
Import PyStr.

(** [s.split(sep)] *)
Fixpoint split_on (sep : ascii) (s : string) : list string :=
  match s with
  | "" => [""]
  | String c r =>
      if Ascii.eqb c sep then "" :: split_on sep r
      else match split_on sep r with
           | [] => [String c ""]
           | h :: t => String c h :: t
           end
  end.

(** [s.split(sep, 1)] when it has two parts *)
Fixpoint split_first (sep : ascii) (s : string) : option (string * string) :=
  match s with
  | "" => None
  | String c r =>
      if Ascii.eqb c sep then Some ("", r)
      else match split_first sep r with
           | Some (a, b) => Some (String c a, b)
           | None => None
           end
  end.

Definition hex_value (c : ascii) : option N :=
  let n := N_of_ascii c in
  if ((48 <=? n) && (n <=? 57))%N then Some (n - 48)%N
  else if ((65 <=? n) && (n <=? 70))%N then Some (n - 55)%N
  else if ((97 <=? n) && (n <=? 102))%N then Some (n - 87)%N
  else None.

(** [urllib.parse.unquote]: [%XY] becomes the byte [0xXY]; a [%] not
    followed by two hex digits stays.  (Python then decodes the bytes
    as UTF-8 and replaces what is not valid by U+FFFD; the bytes are
    kept as they are here.) *)
Fixpoint unquote (s : string) : string :=
  match s with
  | "" => ""
  | String c t =>
      if Ascii.eqb c "%" then
        match t with
        | String h (String l r) =>
            match hex_value h, hex_value l with
            | Some a, Some b => String (ascii_of_N (16 * a + b)) (unquote r)
            | _, _ => String c (unquote t)
            end
        | _ => String c (unquote t)
        end
      else String c (unquote t)
  end.

Definition unquote_plus (s : string) : string :=
  unquote (replace_char "+" " " s).

(** [parse_qsl] with its defaults: fields split at [&]; a field
    without [=] and a field with a blank value are dropped. *)
Definition parse_field (name_value : string) : option (string * string) :=
  match split_first "=" name_value with
  | Some (n, v) =>
      if decide (v = "") then None else Some (unquote_plus n, unquote_plus v)
  | None => None
  end.
Definition parse_qsl (qs : string) : list (string * string) :=
  omap parse_field (split_on "&" qs).

(** [parse_qs]: the values of a repeated name are collected in order. *)
Definition add_field (d : gmap string (list string)) (nv : string * string)
  : gmap string (list string) :=
  match d !! nv.1 with
  | Some vs => <[nv.1 := vs ++ [nv.2]]> d
  | None => <[nv.1 := [nv.2]]> d
  end.
Definition parse_qs (qs : string) : gmap string (list string) :=
  foldl add_field ∅ (parse_qsl qs).

(** [parse_qs(self.path.split('?')[-1]) if '?' in self.path else {}] *)
Definition query_components (request_path : string) : gmap string (list string) :=
  if has_char "?" request_path
  then parse_qs (from_index (rfind "?" request_path + 1) request_path)
  else ∅.

(** *** [int(s)] for a string, base 10 *)
Definition is_space (c : ascii) : bool :=
  let n := N_of_ascii c in
  (((9 <=? n) && (n <=? 13)) || ((28 <=? n) && (n <=? 32)))%N.
Definition is_digit (c : ascii) : bool :=
  let n := N_of_ascii c in ((48 <=? n) && (n <=? 57))%N.
Definition digit_value (c : ascii) : Z := Z.of_N (N_of_ascii c) - 48.

Fixpoint lstrip (s : string) : string :=
  match s with
  | String c r => if is_space c then lstrip r else s
  | "" => ""
  end.
Definition strip (s : string) : string :=
  String.rev (lstrip (String.rev (lstrip s))).

(** digits, with single underscores allowed between two digits *)
Fixpoint int_digits (s : string) (acc : Z) (after_digit : bool) : option Z :=
  match s with
  | "" => if after_digit then Some acc else None
  | String c r =>
      if is_digit c then int_digits r (10 * acc + digit_value c) true
      else if Ascii.eqb c "_" && after_digit then int_digits r acc false
      else None
  end.

Fixpoint count_digits (s : string) : Z :=
  match s with
  | "" => 0
  | String c r => (if is_digit c then 1 else 0) + count_digits r
  end.

(** [sys.int_info.default_max_str_digits] *)
Definition MAX_STR_DIGITS : Z := 4300.

(** [None] stands for the [ValueError] that [int] raises.  Exact for
    ASCII strings; Python also takes the decimal digits and the
    spaces of other scripts, which are bytes above 127 here. *)
Definition py_int (s : string) : option Z :=
  let t := strip s in
  if MAX_STR_DIGITS <? count_digits t then None
  else match t with
       | String "-" r => Z.opp <$> int_digits r 0 false
       | String "+" r => int_digits r 0 false
       | _ => int_digits t 0 false
       end.

End Query.

(** ** The filesystem the handler sees

  A snapshot of the served tree: absolute, normalised paths mapped
  to what is found there.  A path with no entry does not exist; a
  [stat] on it raises [OSError].  There are no symbolic links, so
  [Path.resolve] is the identity. *)

Module Fs.
Import PyStr.

Inductive node :=
| RegFile (mtime : Z) (data : string)
| Directory (mtime : Z).

Record stat_result := mk_stat { st_mtime : Z; st_size : Z }.

(** [Path(p).stat()]; the server reads [st_size] of regular files only. *)
Definition stat (f : gmap string node) (p : string) : option stat_result :=
  match f !! p with
  | Some (RegFile m d) => Some (mk_stat m (Z.of_nat (String.length d)))
  | Some (Directory m) => Some (mk_stat m 0)
  | None => None
  end.

Definition exists_ (f : gmap string node) (p : string) : bool :=
  bool_decide (is_Some (f !! p)).
Definition is_file (f : gmap string node) (p : string) : bool :=
  match f !! p with Some (RegFile _ _) => true | _ => false end.
Definition is_dir (f : gmap string node) (p : string) : bool :=
  match f !! p with Some (Directory _) => true | _ => false end.

(** [path_obj / name] *)
Definition joinpath (p name : string) : string := p +:+ "/" +:+ name.

(** [p.relative_to(base)] for a path strictly below [base] *)
Definition relative_to (base p : string) : option string :=
  let stem := base +:+ "/" in
  if String.prefix stem p
  then Some (str_drop (String.length stem) p)
  else None.



(** [Path(dir).rglob('*')]: every path below [dir] *)
Definition rglob (f : gmap string node) (dir : string) : list string :=
  List.filter (λ p, bool_decide (is_Some (relative_to dir p))) (map_to_list f).*1.

(** [Path(p).name] and [Path(p).suffix] *)
Definition path_name (p : string) : string := from_index (rfind "/" p + 1) p.
Definition path_suffix (p : string) : string :=
  let name := path_name p in
  let i := rfind "." name in
  if (0 <? i) && (i <? Z.of_nat (String.length name) - 1)
  then from_index i name else "".

(** [Path(p).with_suffix(suffix)]; [None] is the [ValueError] of a
    path with an empty name. *)
Definition with_suffix (p suffix : string) : option string :=
  if bool_decide (path_name p = "") then None
  else Some (str_take (String.length p - String.length (path_suffix p)) p +:+ suffix).

(** [open(p, 'rb').read()] *)
Definition read_bytes (f : gmap string node) (p : string) : option string :=
  match f !! p with Some (RegFile _ d) => Some d | _ => None end.

End Fs.

(** ** The directory-size cache

  [_cached_get_directory_size] is a method wrapped by
  [functools.lru_cache(maxsize=128)].  The wrapper is one object held
  by the class, and it keys each entry on the whole argument tuple
  [(self, path, mtime)]; a handler object hashes and compares by
  identity, which [handler_id] stands for. *)

Module SizeCache.
Import Fs.

Definition handler_id := nat.

Record cache_key := mk_key {
  key_self : handler_id; key_path : string; key_mtime : Z
}.
#[global] Instance cache_key_eq_dec : EqDecision cache_key.
Proof. solve_decision. Defined.

(** What the calls do to the filesystem, newest first. *)
Inductive event :=
| EvStat (p : string)
| EvWalk (p : string).

Record state := mk_state {
  lru : list (cache_key * Z);   (* most recently used first *)
  trace : list event
}.

Definition initial : state := mk_state [] [].
Definition maxsize : nat := 128.

Definition lru_find (k : cache_key) (c : list (cache_key * Z)) : option Z :=
  snd <$> List.find (λ e, bool_decide (e.1 = k)) c.
Definition lru_remove (k : cache_key) (c : list (cache_key * Z)) :=
  List.filter (λ e, negb (bool_decide (e.1 = k))) c.

(** The wrapped body: the recursive walk summing regular-file sizes.
    In a snapshot no [stat] of an enumerated path raises, so the
    [except OSError] branch is not needed. *)
Definition walk_size (f : gmap string node) (path : string) : Z :=
  foldl (λ total fp, if is_file f fp
                     then total + default 0 (st_size <$> stat f fp)
                     else total)
        0 (rglob f path).

Definition _cached_get_directory_size (f : gmap string node)
    (self : handler_id) (path : string) (mtime : Z) (s : state) : Z * state :=
  let k := mk_key self path mtime in
  match lru_find k (lru s) with
  | Some v => (v, mk_state ((k, v) :: lru_remove k (lru s)) (trace s))
  | None =>
      let v := walk_size f path in
      (v, mk_state (take maxsize ((k, v) :: lru s)) (EvWalk path :: trace s))
  end.

Definition get_directory_size (f : gmap string node)
    (self : handler_id) (path : string) (s : state) : Z * state :=
  let s := mk_state (lru s) (EvStat path :: trace s) in
  match stat f path with
  | None => (0, s)
  | Some st => _cached_get_directory_size f self path (st_mtime st) s
  end.

End SizeCache.

(** ** The directory listing *)

Module Listing.
Import PyStr Query Fs.

Definition PAGE_SIZE : Z := 20.

(** *** The page templates, as [str.format] fills them *)



(** *** Exceptions and the handler monad

    A handler method either returns or raises; on the way it may
    fill the size cache, and what it cached stays cached when it
    raises. *)

Inductive exn := ValueError | IndexError | UnboundLocalError.

Inductive result (A : Type) :=
| Ok (a : A)
| Raise (e : exn).
Arguments Ok {A} a.
Arguments Raise {A} e.

Definition M (A : Type) : Type := SizeCache.state → result A * SizeCache.state.

Definition ret {A} (a : A) : M A := λ s, (Ok a, s).
Definition raise {A} (e : exn) : M A := λ s, (Raise e, s).
Definition bind {A B} (m : M A) (k : A → M B) : M B :=
  λ s, match m s with
       | (Ok a, s') => k a s'
       | (Raise e, s') => (Raise e, s')
       end.
Definition lift {A} (call : SizeCache.state → A * SizeCache.state) : M A :=
  λ s, let (a, s') := call s in (Ok a, s').
Definition of_result {A} (r : result A) : M A := λ s, (r, s).

#[global] Instance M_ret : MRet M := @ret.
#[global] Instance M_bind : MBind M := λ A B k m, bind m k.

(** *** Sorting and slicing *)

(** [l.sort(key=key)]: the sort is stable, so an element goes in
    front of the first one whose key is not smaller than its own. *)
Fixpoint insert_by (key : string → string) (x : string) (l : list string) : list string :=
  match l with
  | [] => [x]
  | y :: r => if String.leb (key x) (key y) then x :: y :: r
              else y :: insert_by key x r
  end.
Definition sort_by (key : string → string) (l : list string) : list string :=
  foldr (insert_by key) [] l.

(** [l[start:stop]], with Python's treatment of negative and
    out-of-range bounds *)
Definition slice_bound (len i : Z) : Z :=
  if i <? 0 then Z.max 0 (i + len) else Z.min i len.
Definition py_slice {A} (l : list A) (start stop : Z) : list A :=
  let len := Z.of_nat (length l) in
  let a := slice_bound len start in
  let b := slice_bound len stop in
  take (Z.to_nat (b - a)) (drop (Z.to_nat a) l).

(** [range(a, b)] *)
Definition range (a b : Z) : list Z := seqZ a (b - a).

(** [round(x)] to the nearest integer, ties to even, for [0 <= x] *)
Definition round_half_even (x : Q) : Z :=
  let d := Z.pos (Qden x) in
  let q := Qnum x / d in
  let r := Qnum x mod d in
  if 2 * r <? d then q
  else if d <? 2 * r then q + 1
  else if Z.even q then q else q + 1.

(** [f"{x:.{places}f}"] for [0 <= x] *)
Definition format_f (places : nat) (x : Q) : string :=
  let scale := 10 ^ Z.of_nat places in
  let m := round_half_even (x * inject_Z scale) in
  match places with
  | O => str_of_int m
  | _ => str_of_int (m / scale) +:+ "." +:+ zfill places (str_of_int (m mod scale))
  end.

Fixpoint human_readable_units (units : list string) (decimal_places : nat)
    (size : Q) : string :=
  match units with
  | [] => format_f decimal_places size +:+ " EB"
  | unit :: rest =>
      if negb (Qle_bool 1024 size)
      then format_f decimal_places size +:+ " " +:+ unit
      else human_readable_units rest decimal_places (size / 1024)%Q
  end.

Definition human_readable_size (size : Z) (decimal_places : nat) : string :=
  if size <? 0 then "N/A"
  else human_readable_units ["B"; "KB"; "MB"; "GB"; "TB"; "PB"]
         decimal_places (inject_Z size).

(** [t.strftime('%Y-%m-%d %H:%M:%S')] *)
Definition strftime (t : tm) : string :=
  zfill 4 (str_of_int (tm_year t)) +:+ "-" +:+ zfill 2 (str_of_int (tm_mon t))
  +:+ "-" +:+ zfill 2 (str_of_int (tm_mday t)) +:+ " "
  +:+ zfill 2 (str_of_int (tm_hour t)) +:+ ":" +:+ zfill 2 (str_of_int (tm_min t))
  +:+ ":" +:+ zfill 2 (str_of_int (tm_sec t)).

(** [os.path.splitext(p)[1]]: the extension starts at the last dot of
    the last component, unless only dots precede it there. *)
Definition splitext_ext (p : string) : string :=
  let sepIndex := rfind "/" p in
  let dotIndex := rfind "." p in
  if sepIndex <? dotIndex then
    let lead := between (sepIndex + 1) dotIndex p in
    if bool_decide (replace_char "." "" lead = "") then "" else from_index dotIndex p
  else "".

Definition previewable_extensions : gset string :=
  list_to_set
    [".txt"; ".csv"; ".log"; ".md"; ".json"; ".xml";
     ".yaml"; ".yml"; ".ini"; ".cfg";
     ".py"; ".js"; ".html"; ".css"; ".java"; ".c"; ".cpp"; ".h"; ".cs";
     ".rb"; ".php"; ".go"; ".swift"; ".ts"; ".sh"; ".bash"; ".sql"].

Definition generate_directory_entry
    (linkname displayname size_str mod_time_str : string) : string :=
  let safe_linkname := escape linkname true in
  let safe_displayname := escape displayname false in
  "<li><a href=" +:+ DQ +:+ safe_linkname +:+ "/" +:+ DQ +:+ ">"
    +:+ safe_displayname +:+ "/</a>"
  +:+ "<span class=" +:+ DQ +:+ "size" +:+ DQ +:+ ">" +:+ size_str +:+ "</span>"
  +:+ "<span class=" +:+ DQ +:+ "date" +:+ DQ +:+ ">" +:+ mod_time_str +:+ "</span>"
  +:+ "<span class=" +:+ DQ +:+ "actions" +:+ DQ +:+ "><a href=" +:+ DQ
    +:+ safe_linkname +:+ ".zip" +:+ DQ +:+ ">下载 (ZIP)</a></span></li>".

Section WithPlatform.
Context `{Platform}.

Definition generate_file_entry
    (linkname displayname size_str mod_time_str : string) : string :=
  let safe_linkname := escape linkname true in
  let safe_displayname := escape displayname false in
  let ext := splitext_ext (lower displayname) in
  let preview_link_html :=
    if bool_decide (ext ∈ previewable_extensions)
    then " <a href=" +:+ DQ +:+ safe_linkname +:+ DQ +:+ " target=" +:+ DQ
         +:+ "_blank" +:+ DQ +:+ ">预览</a>"
    else "" in
  "<li><a href=" +:+ DQ +:+ safe_linkname +:+ DQ +:+ ">" +:+ safe_displayname +:+ "</a>"
  +:+ "<span class=" +:+ DQ +:+ "size" +:+ DQ +:+ ">" +:+ size_str +:+ "</span>"
  +:+ "<span class=" +:+ DQ +:+ "date" +:+ DQ +:+ ">" +:+ mod_time_str +:+ "</span>"
  +:+ "<span class=" +:+ DQ +:+ "actions" +:+ DQ +:+ "><a href=" +:+ DQ
    +:+ safe_linkname +:+ DQ +:+ " download>下载</a>" +:+ preview_link_html
    +:+ "</span></li>".

(** One turn of [for name in entries]: [stat_result] is a local of
    the whole method, so when [stat] raises it keeps the value of an
    earlier turn, and is unbound when there was none. *)
Definition render_entry (f : gmap string node) (self : SizeCache.handler_id)
    (path_obj name : string) (stat_result : option stat_result)
  : M (string * option Fs.stat_result) :=
  let fullname := joinpath path_obj name in
  let displayname := name in
  let linkname := name in
  let '(stat_result, mod_time_str) :=
    match stat f fullname with
    | Some st => (Some st, strftime (localtime (st_mtime st)))
    | None => (stat_result, "N/A")
    end in
  if is_dir f fullname then
    folder_size ← lift (SizeCache.get_directory_size f self fullname);
    let size_str := human_readable_size folder_size 2 in
    mret (generate_directory_entry linkname displayname size_str mod_time_str,
          stat_result)
  else
    match stat_result with
    | None => raise UnboundLocalError
    | Some st =>
        let size_str := human_readable_size (st_size st) 2 in
        mret (generate_file_entry linkname displayname size_str mod_time_str,
              stat_result)
    end.

Fixpoint render_entries (f : gmap string node) (self : SizeCache.handler_id)
    (path_obj : string) (entries : list string)
    (html_parts : list string) (stat_result : option stat_result)
  : M (list string) :=
  match entries with
  | [] => mret html_parts
  | name :: rest =>
      '(row, stat_result) ← render_entry f self path_obj name stat_result;
      render_entries f self path_obj rest (html_parts ++ [row]) stat_result
  end.

(** [f'<a href="?page={p}&search={quote(search)}">{label}</a>'] *)
Definition page_link (p : Z) (search label : string) : string :=
  "<a href=" +:+ DQ +:+ "?page=" +:+ str_of_int p +:+ "&search=" +:+ quote search
  +:+ DQ +:+ ">" +:+ label +:+ "</a>".

Definition pagination (page total_pages : Z) (search : string) : list string :=
  let links :=
    if 1 <? page
    then [page_link (page - 1) search "&laquo; 上一页"]
    else ["<span class=" +:+ DQ +:+ "disabled" +:+ DQ +:+ ">&laquo; 上一页</span>"] in
  let start_page := Z.max 1 (page - 2) in
  let end_page := Z.min total_pages (page + 2) in
  let links :=
    if 1 <? start_page
    then links ++ [page_link 1 search "1"]
               ++ (if 2 <? start_page then ["<span>...</span>"] else [])
    else links in
  let links :=
    links ++ ((λ p, if bool_decide (p = page)
                    then "<span class=" +:+ DQ +:+ "current" +:+ DQ +:+ ">"
                         +:+ str_of_int p +:+ "</span>"
                    else page_link p search (str_of_int p))
              <$> range start_page (end_page + 1)) in
  let links :=
    if end_page <? total_pages
    then links ++ (if end_page <? total_pages - 1 then ["<span>...</span>"] else [])
               ++ [page_link total_pages search (str_of_int total_pages)]
    else links in
  if page <? total_pages
  then links ++ [page_link (page + 1) search "下一页 &raquo;"]
  else links ++ ["<span class=" +:+ DQ +:+ "disabled" +:+ DQ +:+ ">下一页 &raquo;</span>"].


(** The filter, the sort and the page window of [list_directory]. *)
Definition select_page (entries : list string) (page : Z) (search : string)
  : list string * Z * Z :=
  let entries :=
    if bool_decide (search = "") then entries
    else List.filter (λ entry, contains search (lower entry)) entries in
  let entries := sort_by lower entries in
  let total_entries := Z.of_nat (length entries) in
  let total_pages := Z.max 1 ((total_entries + PAGE_SIZE - 1) / PAGE_SIZE) in
  let page := Z.max 1 (Z.min page total_pages) in
  let start_idx := (page - 1) * PAGE_SIZE in
  let end_idx := start_idx + PAGE_SIZE in
  (py_slice entries start_idx end_idx, page, total_pages).

(** What a handler method leaves on the wire. *)
Inductive reply :=
| Response (status : Z) (headers : list (string * string)) (body : list string)
| SendError (status : Z) (message : string).

(** [int(query_components.get('page', [1])[0])] *)
Definition page_param (query : gmap string (list string)) : result Z :=
  match query !! "page" with
  | None => Ok 1
  | Some [] => Raise IndexError
  | Some (v :: _) =>
      match py_int v with
      | Some n => Ok n
      | None => Raise ValueError
      end
  end.



End WithPlatform.

End Listing.

(** ** The content streamer *)

Module Streamer.
Import PyStr Query Fs Listing.

Definition STATIC_DIR_NAME : string := "static".
Definition FILE_CHUNK_SIZE : Z := 16 * 1024.

Definition CODE_VIEW_FRAME_TEMPLATE
    (filename raw_url static_dir enable_highlight chunk_size : string) : string :=
    "<!DOCTYPE html>
<html>
<head>
    <title>Code Viewer - " +:+ filename +:+
    "</title>
    <meta charset=" +:+ DQ +:+ "utf-8" +:+ DQ +:+
    ">
    <meta name=" +:+ DQ +:+ "viewport" +:+ DQ +:+ " content=" +:+ DQ +:+
    "width=device-width, initial-scale=1.0" +:+ DQ +:+
    ">
    <style>
        :root { --bg-color: #f5f5f5; --header-bg: #222; --header-text: white; --code-bg: #fdfdfd; --loading-text: #888; }
        body { font-family: -apple-system, BlinkMacSystemFont, " +:+
    DQ +:+ "Segoe UI" +:+ DQ +:+ ", Roboto, " +:+ DQ +:+ "Helvetica Neue" +:+ DQ +:+
    ", Arial, sans-serif; margin: 0; padding: 0; background-color: var(--bg-color); color: #333; }
        .header { background-color: var(--header-bg); color: var(--header-text); padding: 1rem 1.25rem; display: flex; justify-content: space-between; align-items: center; border-bottom: 1px solid #444; position: sticky; top: 0; z-index: 100; }
        .header a { color: #66d9ef; text-decoration: none; font-weight: 500; }
        .header a:hover { text-decoration: underline; }
        #loading { text-align: center; padding: 2rem; color: var(--loading-text); font-size: 1rem; }
        #code-container { padding: 1rem; }
        pre { margin: 0; background-color: var(--code-bg); border-radius: 5px; padding: 1rem; overflow-x: auto; box-shadow: inset 0 0 5px rgba(0,0,0,0.05); }
        code { font-family: " +:+
    DQ +:+ "SFMono-Regular" +:+ DQ +:+ ", Consolas, " +:+ DQ +:+ "Liberation Mono" +:+
    DQ +:+
    ", Menlo, monospace; font-size: 0.875rem; line-height: 1.4; display: block; white-space: pre-wrap; word-wrap: break-word; }
        /* 滚动条样式 (可选) */
        ::-webkit-scrollbar { width: 10px; height: 10px; }
        ::-webkit-scrollbar-track { background: #f1f1f1; border-radius: 5px; }
        ::-webkit-scrollbar-thumb { background: #c1c1c1; border-radius: 5px; }
        ::-webkit-scrollbar-thumb:hover { background: #a8a8a8; }
        @media (prefers-color-scheme: dark) {
            :root { --bg-color: #1e1e1e; --header-bg: #121212; --code-bg: #252526; --loading-text: #aaa; --header-text: #eee; }
            body { background-color: var(--bg-color); color: #ccc; }
            pre { background-color: var(--code-bg); box-shadow: inset 0 0 5px rgba(0,0,0,0.3); }
            .header a { color: #4ec9b0; }
            ::-webkit-scrollbar-track { background: #2a2a2a; }
            ::-webkit-scrollbar-thumb { background: #555; }
            ::-webkit-scrollbar-thumb:hover { background: #777; }
        }
    </style>
</head>
<body>
    <div class=" +:+
    DQ +:+ "header" +:+ DQ +:+
    ">
        <h2>" +:+ filename +:+
    "</h2>
        <a href=" +:+ DQ +:+ raw_url +:+ DQ +:+
    ">下载原始文件</a>
    </div>
    <div id=" +:+ DQ +:+ "loading" +:+ DQ +:+
    ">正在加载文件内容...</div>
    <div id=" +:+ DQ +:+ "code-container" +:+ DQ +:+
    ">
        <pre><code id=" +:+ DQ +:+ "code-content" +:+ DQ +:+
    "></code></pre>
    </div>
    <script>
        const filePath = " +:+ DQ +:+
    raw_url +:+ DQ +:+
    ";
        const contentUrl = filePath + " +:+ DQ +:+
    "?action=get_content&chunk_size=" +:+ chunk_size +:+ DQ +:+
    ";
        const codeElement = document.getElementById('code-content');
        const loadingElement = document.getElementById('loading');

        let decoder = new TextDecoder('utf-8');
        let initialRenderDone = false;

        async function loadFileContent() {
            try {
                const response = await fetch(contentUrl);
                if (!response.ok) {
                    throw new Error(`HTTP error! status: ${response.status}`);
                }
                const contentType = response.headers.get('content-type');
                if (!contentType || !contentType.startsWith('text/plain')) {
                     throw new Error(`Invalid content type: ${contentType}`);
                }

                const reader = response.body.getReader();
                loadingElement.style.display = 'none';
                let isFirstChunk = true;

                while (true) {
                    const { done, value } = await reader.read();
                    if (done) {
                        console.log(" +:+
    DQ +:+ "Stream complete" +:+ DQ +:+
    ");
                        break;
                    }
                    
                    const chunkText = decoder.decode(value, { stream: true });
                    
                    if (isFirstChunk) {
                        codeElement.textContent = chunkText;
                        if (window.Prism && " +:+
    enable_highlight +:+
    ") {
                            try { Prism.highlightElement(codeElement); } catch (e) { console.error(" +:+
    DQ +:+ "Prism error:" +:+ DQ +:+
    ", e); }
                        }
                        isFirstChunk = false;
                    } else {
                        codeElement.textContent += chunkText;
                    }
                }
                
                if (window.Prism && " +:+
    enable_highlight +:+
    ") {
                    console.log(" +:+ DQ +:+ "Performing final highlight..." +:+
    DQ +:+
    ");
                    try {
                        Prism.highlightAll();
                    } catch (e) {
                        console.error(" +:+
    DQ +:+ "Final Prism highlight error:" +:+ DQ +:+
    ", e);
                    }
                }
                
            } catch (error) {
                console.error('Error loading file content:', error);
                loadingElement.textContent = `加载失败: ${error.message}`;
                loadingElement.style.color = 'red';
            }
        }

        window.addEventListener('DOMContentLoaded', (event) => {
            loadFileContent();
        });
        
        if (" +:+
    enable_highlight +:+
    ") {
            console.log(" +:+ DQ +:+ "Loading Prism.js..." +:+ DQ +:+
    ");
            const link = document.createElement('link');
            link.rel = 'stylesheet';
            link.href = '/" +:+
    static_dir +:+
    "/prism.css';
            document.head.appendChild(link);
            
            const script = document.createElement('script');
            script.src = '/" +:+
    static_dir +:+
    "/prism.js';
            script.onload = function() {
                console.log(" +:+
    DQ +:+ "Prism.js loaded." +:+ DQ +:+
    ");
            };
            document.head.appendChild(script);
        }
    </script>
</body>
</html>".

Definition MARKDOWN_VIEWER_TEMPLATE (filename raw_url : string) : string :=
    "<!DOCTYPE html>
<html>
<head>
    <title>Markdown Viewer - " +:+ filename +:+
    "</title>
    <meta charset=" +:+ DQ +:+ "utf-8" +:+ DQ +:+
    ">
    <meta name=" +:+ DQ +:+ "viewport" +:+ DQ +:+ " content=" +:+ DQ +:+
    "width=device-width, initial-scale=1.0" +:+ DQ +:+
    ">
    <style>
        :root { --bg-color: #f8f9fa; --header-bg: #222; --header-text: white; --content-bg: #ffffff; --text-color: #212529; --border-color: #dee2e6; }
        body { font-family: -apple-system, BlinkMacSystemFont, " +:+
    DQ +:+ "Segoe UI" +:+ DQ +:+ ", Roboto, " +:+ DQ +:+ "Helvetica Neue" +:+ DQ +:+
    ", Arial, sans-serif; margin: 0; padding: 0; background-color: var(--bg-color); color: var(--text-color); }
        .header { background-color: var(--header-bg); color: var(--header-text); padding: 1rem 1.25rem; display: flex; justify-content: space-between; align-items: center; border-bottom: 1px solid #444; position: sticky; top: 0; z-index: 100; }
        .header a { color: #66d9ef; text-decoration: none; font-weight: 500; margin-left: 1rem; }
        .header a:hover { text-decoration: underline; }
        #loading { text-align: center; padding: 2rem; color: #6c757d; }
        #md-container { padding: 2rem; background-color: var(--content-bg); margin: 1rem; border-radius: 5px; box-shadow: 0 0.125rem 0.25rem rgba(0,0,0,0.075); }
        #md-content { line-height: 1.6; }
        /* Basic Markdown Styles */
        #md-content h1, #md-content h2, #md-content h3 { margin-top: 1.5rem; margin-bottom: 1rem; }
        #md-content p { margin-bottom: 1rem; }
        #md-content pre { background-color: #f1f1f1; padding: 1rem; overflow-x: auto; border-radius: 4px; }
        #md-content code { font-family: " +:+
    DQ +:+ "SFMono-Regular" +:+ DQ +:+ ", Consolas, " +:+ DQ +:+ "Liberation Mono" +:+
    DQ +:+
    ", Menlo, monospace; background-color: #f1f1f1; padding: 0.2em 0.4em; border-radius: 3px; }
        #md-content pre code { background-color: transparent; padding: 0; }
        #md-content blockquote { margin: 0 0 1rem; padding: 0.5rem 1rem; border-left: 0.25rem solid #dee2e6; }
        #md-content ul, #md-content ol { margin-bottom: 1rem; padding-left: 2rem; }
        #md-content li { margin-bottom: 0.25rem; }
        #md-content table { border-collapse: collapse; width: 100%; margin-bottom: 1rem; }
        #md-content th, #md-content td { padding: 0.75rem; vertical-align: top; border-top: 1px solid var(--border-color); }
        #md-content th { background-color: #e9ecef; }
        @media (prefers-color-scheme: dark) {
            :root { --bg-color: #121212; --header-bg: #1e1e1e; --content-bg: #1e1e1e; --text-color: #e0e0e0; --border-color: #444; }
            body { background-color: var(--bg-color); color: var(--text-color); }
            #md-container { background-color: var(--content-bg); box-shadow: 0 0.125rem 0.25rem rgba(0,0,0,0.2); }
            #md-content pre, #md-content code, #md-content blockquote { background-color: #2a2a2a; }
            #md-content th { background-color: #3a3a3a; }
        }
    </style>
</head>
<body>
    <div class=" +:+
    DQ +:+ "header" +:+ DQ +:+
    ">
        <h2>" +:+ filename +:+
    "</h2>
        <div>
            <a href=" +:+ DQ +:+ raw_url +:+ DQ +:+ " target=" +:+
    DQ +:+ "_blank" +:+ DQ +:+
    ">查看源码</a>
            <a href=" +:+ DQ +:+ raw_url +:+ DQ +:+
    ">下载原始文件</a>
        </div>
    </div>
    <div id=" +:+ DQ +:+ "loading" +:+ DQ +:+
    ">正在渲染 Markdown...</div>
    <div id=" +:+ DQ +:+ "md-container" +:+ DQ +:+
    ">
        <div id=" +:+ DQ +:+ "md-content" +:+ DQ +:+
    "></div>
    </div>
    <script>
        const contentUrl = " +:+ DQ +:+ raw_url +:+
    "?action=get_content&render=html" +:+ DQ +:+
    ";

        async function loadMarkdownContent() {
            const loadingElement = document.getElementById('loading');
            const contentElement = document.getElementById('md-content');
            try {
                const response = await fetch(contentUrl);
                if (!response.ok) {
                    throw new Error(`HTTP error! status: ${response.status}`);
                }
                const htmlText = await response.text();
                loadingElement.style.display = 'none';
                contentElement.innerHTML = htmlText;
            } catch (error) {
                console.error('Error loading Markdown content:', error);
                loadingElement.textContent = `渲染失败: ${error.message}`;
                loadingElement.style.color = 'red';
            }
        }

        window.addEventListener('DOMContentLoaded', (event) => {
            loadMarkdownContent();
        });
    </script>
</body>
</html>".

(** [f.read(n)] on a binary file object whose unread part is [f]: the
    bytes read and the part left. *)
Definition read (n : Z) (f : string) : string * string :=
  (str_take (Z.to_nat n) f, str_drop (Z.to_nat n) f).

(** The copy loop of [_serve_file_content], for a chunk size [size]:
    [while True: chunk = f.read(size); if not chunk: break;
    self.wfile.write(chunk)], with [wfile] the chunks written so far. *)
Equations? copy_chunks (size : Z) (f : string) (wfile : list string) : list string
  by wf (String.length f) lt :=
  copy_chunks size f wfile with Logic.inspect (read size f) => {
    | exist _ ("", _) _ := wfile;
    | exist _ (String c chunk, f') Hread :=
        copy_chunks size f' (wfile ++ [String c chunk])
  }.
Proof.
  match goal with H : str_take _ _ = _ |- _ => rename H into Hchunk end.
  generalize dependent (Z.to_nat size). intros n Hchunk.
  destruct n as [|n], f as [|d f]; try discriminate Hchunk.
  clear. cbn [str_drop String.length].
  enough (String.length (str_drop n f) <= String.length f)%nat by lia.
  revert f. induction n as [|n IH]; intros [|e f]; cbn; try lia.
  specialize (IH f). lia.
Qed.

Section WithPlatform.
Context `{Platform}.

(** Reads of an existing file and writes to the client succeed here;
    the [except] branches for I/O errors and a broken pipe have no
    counterpart. *)
Definition _serve_file_content (f : gmap string node) (file_path : string) : reply :=
  if negb (is_file f file_path) then SendError 404 "File not found"
  else
    Response 200
      [("Content-type", "text/plain"); ("Content-Encoding", "identity");
       ("Cache-Control", "no-cache")]
      (copy_chunks FILE_CHUNK_SIZE (default "" (read_bytes f file_path)) []).

Definition _serve_file_content_as_html (f : gmap string node) (file_path : string) : reply :=
  if negb MARKDOWN_AVAILABLE then
    SendError 500
      "Markdown rendering not available. Please install the 'markdown' package."
  else if negb (is_file f file_path) then SendError 404 "File not found"
  else
    let md_content := default "" (read_bytes f file_path) in
    if negb (utf8_valid md_content) then SendError 400 "File encoding error"
    else
      let html_content := markdown md_content in
      Response 200
        [("Content-type", "text/html; charset=utf-8"); ("Cache-Control", "no-cache")]
        [html_content].

Definition _generate_markdown_viewer_html (filename raw_url : string) : string :=
  MARKDOWN_VIEWER_TEMPLATE (escape filename false) (escape raw_url true).

(** [query_components.get(name, [None])[0]] *)
Definition first_value (query : gmap string (list string)) (name : string)
  : option string :=
  query !! name ≫= head.

(** Building the viewer page cannot raise here, so its
    [except Exception] branch (a 500 reply) has no counterpart. *)
Definition handle_text_file (f : gmap string node)
    (request_path file_path_str mime_type : string) : reply :=
  let file_path := file_path_str in
  let query := query_components request_path in
  if bool_decide (first_value query "action" = Some "get_content") then
    let render_html := bool_decide (first_value query "render" = Some "html") in
    if render_html && MARKDOWN_AVAILABLE
       && bool_decide (lower (path_suffix file_path) = ".md")
    then _serve_file_content_as_html f file_path
    else _serve_file_content f file_path
  else
    let file_extension := lower (path_suffix file_path) in
    let raw_url := hd "" (split_on "?" request_path) in
    let html_content :=
      if bool_decide (file_extension = ".md") && MARKDOWN_AVAILABLE
      then _generate_markdown_viewer_html (path_name file_path) raw_url
      else CODE_VIEW_FRAME_TEMPLATE (escape (path_name file_path) false) raw_url
             STATIC_DIR_NAME
             (if ENABLE_SYNTAX_HIGHLIGHTING then "true" else "false")
             (str_of_int FILE_CHUNK_SIZE) in
    Response 200 [("Content-type", "text/html; charset=utf-8")] [html_content].

End WithPlatform.

End Streamer.

(** ** The archive builder

    [create_zip] changes the filesystem, and any of its steps may
    raise.  A [scenario] fixes which step does; the filesystem calls
    that go through are recorded in order, so every state the disk
    passes through can be replayed.  The whole body runs under
    [zip_creation_lock], so one call is followed from start to end
    with no other build in between.  The temporary file is a sibling
    of the target, and [shutil.move] between siblings is [os.rename]:
    it happens entirely or not at all. *)

Module Archive.
Import PyStr Fs.

Inductive fs_op :=
| OpCreate (p : string)                  (* open for writing: create or truncate *)
| OpAppend (p : string) (bytes : string) (* write at the end *)
| OpRename (src dst : string)            (* [os.rename] *)
| OpUnlink (p : string).

Definition apply_op (now : Z) (f : gmap string node) (op : fs_op) : gmap string node :=
  match op with
  | OpCreate p => <[p := RegFile now ""]> f
  | OpAppend p bytes =>
      match f !! p with
      | Some (RegFile _ d) => <[p := RegFile now (d +:+ bytes)]> f
      | _ => f
      end
  | OpRename src dst =>
      match f !! src with
      | Some n => <[dst := n]> (delete src f)
      | None => f
      end
  | OpUnlink p => delete p f
  end.

(** The step of the build that raises, if any. *)
Inductive fault :=
| FailOpen                               (* [ZipFile(temp, 'w')] *)
| FailMember (i : nat) (junk : string)   (* the walk or [zipf.write] at member [i],
                                            after [junk] reached the file *)
| FailClose (junk : string)              (* closing the archive *)
| FailMove.                              (* [shutil.move] *)

Record scenario := mk_scenario {
  build_fault : option fault;
  cleanup_fails : bool;    (* [temp_zip_path.unlink()] raises *)
  now : Z                  (* the clock, for modification times *)
}.

Record world := mk_world {
  files : gmap string node;
  history : list fs_op
}.

Definition do_op (sc : scenario) (op : fs_op) (w : world) : world :=
  mk_world (apply_op (now sc) (files w) op) (history w ++ [op]).


Section WithPlatform.
Context `{Platform}.

(** What reaches the file before member [i] raises, when it does. *)
Definition member_fault (sc : scenario) (i : nat) : option string :=
  match build_fault sc with
  | Some (FailMember j junk) => if bool_decide (i = j) then Some junk else None
  | _ => None
  end.

(** [for file_path in directory_path.rglob('*'): if file_path.is_file():
    zipf.write(file_path, file_path.relative_to(directory_path))];
    [members] are the ones written so far.  [inl] is an exception. *)
Fixpoint write_members (sc : scenario) (directory temp : string)
    (paths : list string) (i : nat) (members : list (string * string)) (w : world)
  : world + list (string * string) * world :=
  match paths with
  | [] => inr (members, w)
  | file_path :: rest =>
      match member_fault sc i with
      | Some junk => inl (do_op sc (OpAppend temp junk) w)
      | None =>
          if is_file (files w) file_path then
            let arcname := default "" (relative_to directory file_path) in
            let data := default "" (read_bytes (files w) file_path) in
            write_members sc directory temp rest (S i) (members ++ [(arcname, data)])
              (do_op sc (OpAppend temp (zip_local_record arcname data)) w)
          else write_members sc directory temp rest (S i) members w
      end
  end.

(** The [try] block; [inl] is an exception, with [temp_zip_path] when
    it was already bound. *)
Definition build (sc : scenario) (directory zip_name : string) (w : world)
  : option string * world + world :=
  let directory_path := directory in
  let zip_path := zip_name in
  match with_suffix zip_path
          (path_suffix zip_path +:+ ".tmp_" +:+ str_of_int getpid) with
  | None => inl (None, w)
  | Some temp_zip_path =>
      match build_fault sc with
      | Some FailOpen => inl (Some temp_zip_path, w)
      | _ =>
          let w := do_op sc (OpCreate temp_zip_path) w in
          match write_members sc directory_path temp_zip_path
                  (rglob (files w) directory_path) 0 [] w with
          | inl w => inl (Some temp_zip_path, w)
          | inr (members, w) =>
              match build_fault sc with
              | Some (FailClose junk) =>
                  inl (Some temp_zip_path, do_op sc (OpAppend temp_zip_path junk) w)
              | _ =>
                  let w := do_op sc (OpAppend temp_zip_path
                                       (zip_central_directory members)) w in
                  match build_fault sc with
                  | Some FailMove => inl (Some temp_zip_path, w)
                  | _ => inr (do_op sc (OpRename temp_zip_path zip_path) w)
                  end
              end
          end
      end
  end.

(** The [except] block's clean-up. *)
Definition cleanup (sc : scenario) (temp_zip_path : option string) (w : world) : world :=
  match temp_zip_path with
  | Some temp =>
      if exists_ (files w) temp
      then if cleanup_fails sc then w else do_op sc (OpUnlink temp) w
      else w
  | None => w
  end.

Definition create_zip (sc : scenario) (directory zip_name : string) (w : world)
  : bool * world :=
  if exists_ (files w) zip_name then (true, w)
  else
    match build sc directory zip_name w with
    | inr w => (true, w)
    | inl (temp_zip_path, w) => (false, cleanup sc temp_zip_path w)
    end.

Definition archive_bytes (members : list (string * string)) : string :=
  String.concat "" ((λ m, zip_local_record m.1 m.2) <$> members)
  +:+ zip_central_directory members.

End WithPlatform.

End Archive.

(** ** Vocabulary of the properties *)

Module Props.
Import PyStr Fs Listing.









(** [ceil(n / d)] *)
Definition ceil_div (n : Z) (d : positive) : Z := Qceiling (n # d).

(** A filesystem call that concerns the file [temp] alone. *)
Definition writes_only (temp : string) (op : Archive.fs_op) : Prop :=
  match op with
  | Archive.OpCreate p | Archive.OpAppend p _ | Archive.OpUnlink p => p = temp
  | Archive.OpRename _ _ => False
  end.


(** [w'] comes from [w] by calls on [temp] alone, made at time [t]. *)
Definition reaches (t : Z) (temp : string) (w w' : Archive.world) : Prop :=
  ∃ ops, Archive.history w' = Archive.history w ++ ops
         ∧ Archive.files w' = foldl (Archive.apply_op t) (Archive.files w) ops
         ∧ Forall (writes_only temp) ops.

End Props.

(** ** A concrete platform and a sample tree, for worked examples *)

Module Demo.
Import PyStr Fs.

Definition platform (markdown_available : bool) : Platform := {|
  lower := ascii_lower;
  localtime := λ t, mk_tm 1970 1 1 ((t / 3600) mod 24) ((t / 60) mod 60) (t mod 60);
  getpid := 4242;
  getfilesystemencoding := "utf-8";
  MARKDOWN_AVAILABLE := markdown_available;
  markdown := λ text, "<p>" +:+ text +:+ "</p>";
  utf8_valid := λ _, true;
  ENABLE_SYNTAX_HIGHLIGHTING := true;
  zip_local_record := λ arcname data, "PK34" +:+ arcname +:+ ":" +:+ data;
  zip_central_directory :=
    λ members, "PK12" +:+ String.concat "," (fst <$> members) +:+ "PK56"
|}.

(** The last path stands for an entry whose name is markup.  Such a
    name has a [/] in it, so no enumeration of [/srv] yields it; it is
    handed to [generate_html_list] directly. *)
Definition tree : gmap string node :=
  list_to_map
    [("/srv", Directory 50);
     ("/srv/Test.txt", RegFile 10 "hello");
     ("/srv/alpha", Directory 20);
     ("/srv/TABLE.csv", RegFile 30 "a,b");
     ("/srv/alpha/notes.md", RegFile 40 "# title");
     ("/srv/alpha/deep", Directory 20);
     ("/srv/alpha/deep/data.bin", RegFile 20 "12345");
     ("/srv/<script>x</script>", RegFile 60 "x")].

End Demo.

(** ** The request router

    [do_GET] needs two more things from outside: how a request path
    maps to a path on disk, and what [mimetypes] guesses for a file
    name.  Whatever it passes on to [super().do_GET()] is out of this
    file.  As in the streamer, reading a regular file that is there
    and writing to the client succeed, so the [except] branches around
    the two archive transfers have no counterpart. *)

Module Router.
Import PyStr Query Fs Listing Streamer Archive.

Class Site := {
(** [SimpleHTTPRequestHandler.translate_path] *)
translate_path : string → string;
(** [mimetypes.guess_type(path)[0]] *)
guess_type : string → option string
}.

(** [s.endswith(suffix)] *)
Definition ends_with (suffix s : string) : bool :=
  (String.length suffix <=? String.length s)%nat
  && bool_decide (str_drop (String.length s - String.length suffix) s = suffix).

(** [shutil.COPY_BUFSIZE] on POSIX *)
Definition COPY_BUFSIZE : Z := 64 * 1024.

Inductive served :=
| Replied (r : reply)
| Delegated.           (* [super().do_GET()] *)

Section WithSite.
Context `{Platform} `{Site}.

(** [content_type or 'application/octet-stream'] *)
Definition get_content_type (path : string) : string :=
  match guess_type path with
  | Some content_type =>
      if bool_decide (content_type = "") then "application/octet-stream"
      else content_type
  | None => "application/octet-stream"
  end.

(** The reply that sends an archive: status, the two headers and
    [shutil.copyfileobj(f, self.wfile)]. *)
Definition send_zip (f : gmap string node) (zip_path : string) : reply :=
  Response 200
    [("Content-type", "application/zip");
     ("Content-Length", str_of_int (default 0 (st_size <$> stat f zip_path)))]
    (copy_chunks COPY_BUFSIZE (default "" (read_bytes f zip_path)) []).

(** [do_GET]; its own [previewable_extensions] is the set of
    [generate_file_entry], written out a second time. *)
Definition do_GET (sc : scenario) (request_path : string) (w : world)
  : served * world :=
  if String.prefix ("/" +:+ STATIC_DIR_NAME +:+ "/") request_path then (Delegated, w)
  else
    let full_path := translate_path request_path in
    if ends_with ".zip" request_path && is_file (files w) full_path then
      (Replied (send_zip (files w) full_path), w)
    else if ends_with ".zip" request_path then
      let directory_rel_path :=
        str_take (String.length request_path - 4) request_path in
      let directory_full_path := translate_path directory_rel_path in
      if is_dir (files w) directory_full_path then
        let zip_full_path := full_path in
        let '(ok, w) := create_zip sc directory_full_path zip_full_path w in
        if ok then
          if is_file (files w) zip_full_path
          then (Replied (send_zip (files w) zip_full_path), w)
          else (Replied (SendError 500 "Failed to create ZIP file"), w)
        else (Replied (SendError 500 "Failed to create ZIP file"), w)
      else (Replied (SendError 404 "Directory not found"), w)
    else
      let mime_type := get_content_type full_path in
      let is_text_like :=
        String.prefix "text/" mime_type
        || bool_decide (mime_type ∈ ["application/json"; "application/xml"])
        || bool_decide (lower (path_suffix full_path) ∈ previewable_extensions) in
      if is_text_like && is_file (files w) full_path
      then (Replied (handle_text_file (files w) request_path full_path mime_type), w)
      else (Delegated, w).

End WithSite.

End Router.

(** ** Start-up: the shared directory and the port search

    Each port is tried once, in increasing order, so what binding does
    at each port is a function of the port: [bind port] is what
    [TCPServer(("", port), Handler)] gives after
    [kill_process_on_port(port)] has done what it could.  The address
    that [get_local_ip] finds is only printed. *)

Module Lifecycle.
Import PyStr Fs Streamer.

Inductive bind_result :=
| Bound            (* the server is listening *)
| AddressInUse     (* [OSError] with [errno == 98] *)
| OtherError.      (* any other [OSError] *)

Inductive outcome :=
| Serving (port : Z) (highlighting : bool)
| Exit (code : Z)                           (* [sys.exit(code)] *)
| Raised.                                   (* an exception leaves [start_serve] *)

(** The [while True] loop.  A port outside [0 .. 65535] makes [bind]
    raise [OverflowError], which is not an [OSError]. *)
Equations? serve_loop (bind : Z → bind_result) (highlighting : bool) (port : Z)
  : outcome by wf (Z.to_nat (65536 - port)) lt :=
  serve_loop bind highlighting port with Logic.inspect (65535 <? port + 1) => {
    | exist _ full Hfull with (port <? 0) || (65535 <? port) => {
      | true := Raised;
      | false with bind port => {
        | Bound := Serving port highlighting;
        | OtherError := Raised;
        | AddressInUse with full => {
          | true := Exit 1;
          | false := serve_loop bind highlighting (port + 1)
          }
        }
      }
  }.
Proof. lia. Qed.

Section WithPlatform.
Context `{Platform}.

(** [start_serve]; an empty [shared_directory] stands for [None], and
    [desktop] is the Desktop folder the environment then gives. *)
Definition start_serve (f : gmap string node) (bind : Z → bind_result)
    (desktop shared_directory : string) (initial_port : Z) : outcome :=
  let shared_directory :=
    if bool_decide (shared_directory = "") then desktop else shared_directory in
  let shared_path := shared_directory in
  if negb (exists_ f shared_path) then Exit 1
  else if negb (is_dir f shared_path) then Exit 1
  else
    let static_path := joinpath shared_path STATIC_DIR_NAME in
    let highlighting :=
      if negb (exists_ f static_path) || negb (is_dir f static_path) then false
      else ENABLE_SYNTAX_HIGHLIGHTING in
    serve_loop bind highlighting initial_port.

End WithPlatform.

End Lifecycle.

(** ** More vocabulary *)

Module Counting.

(** How many times [c] occurs in [s]. *)
Fixpoint count_char (c : ascii) (s : string) : nat :=
  match s with
  | "" => O
  | String d r => (if Ascii.eqb d c then 1 else 0) + count_char c r
  end.

End Counting.

(** ** A concrete site, for worked examples

    Request paths map below [/srv], the query string dropped; only
    [.txt] has a type that [mimetypes] knows. *)

Module DemoSite.
Import PyStr Query Fs Router.

Definition site : Site := {|
  translate_path := λ request_path, "/srv" +:+ hd "" (split_on "?" request_path);
  guess_type := λ path,
    if bool_decide (path_suffix path = ".txt") then Some "text/plain" else None
|}.

End DemoSite.

(** * Properties *)

(** ** Strings *)

Section StringFacts.
Import PyStr.

Lemma append_cons (c : ascii) (s t : string) : String c s +:+ t = String c (s +:+ t).
Proof. reflexivity. Qed.

Lemma append_nil_r (s : string) : s +:+ "" = s.
Proof. induction s as [|c s IH]; [reflexivity|]. rewrite append_cons. by rewrite IH. Qed.

Lemma append_assoc (a b c : string) : (a +:+ b) +:+ c = a +:+ (b +:+ c).
Proof. induction a as [|x a IH]; [reflexivity|]. rewrite !append_cons. by rewrite IH. Qed.


Lemma has_char_app (c : ascii) (a b : string) :
  has_char c (a +:+ b) = has_char c a || has_char c b.
Proof.
  induction a as [|x a IH]; [reflexivity|].
  rewrite append_cons. cbn. rewrite IH. by rewrite orb_assoc.
Qed.

Lemma str_take_drop (n : nat) (s : string) : str_take n s +:+ str_drop n s = s.
Proof.
  revert s; induction n as [|n IH]; intros [|c r]; cbn; try reflexivity.
  rewrite append_cons. by rewrite IH.
Qed.

Lemma str_take_length (n : nat) (s : string) :
  String.length (str_take n s) = Nat.min n (String.length s).
Proof.
  revert s; induction n as [|n IH]; intros [|c r]; cbn; try reflexivity.
  by rewrite IH.
Qed.

Lemma str_drop_length (n : nat) (s : string) :
  String.length (str_drop n s) = (String.length s - n)%nat.
Proof.
  revert s; induction n as [|n IH]; intros [|c r]; cbn; try reflexivity.
  by rewrite IH.
Qed.

Lemma str_drop_drop (n m : nat) (s : string) :
  str_drop n (str_drop m s) = str_drop (m + n) s.
Proof.
  revert s; induction m as [|m IH]; intros s; [reflexivity|].
  destruct s as [|c r]; cbn; [by destruct n|]. apply IH.
Qed.

Lemma join_app (l1 l2 : list string) : join (l1 ++ l2) = join l1 +:+ join l2.
Proof.
  unfold join. induction l1 as [|x l1 IH]; [reflexivity|].
  destruct l1 as [|y l1].
  - cbn. destruct l2; cbn; [by rewrite append_nil_r | reflexivity].
  - change (String.concat "" ((x :: y :: l1) ++ l2))
      with (x +:+ "" +:+ String.concat "" ((y :: l1) ++ l2)).
    rewrite IH. change (String.concat "" (x :: y :: l1))
      with (x +:+ "" +:+ String.concat "" (y :: l1)).
    cbn. by rewrite !append_assoc.
Qed.

Lemma join_cons (x : string) (l : list string) : join (x :: l) = x +:+ join l.
Proof. apply (join_app [x] l). Qed.

End StringFacts.

(** ** Text without [<] *)

Section PlainFacts.
Import PyStr Listing Props.













End PlainFacts.

(** ** Markup made of the listing's own tags *)

Section TagFacts.
Import PyStr Listing Props.








End TagFacts.


(** ** The stable sort and the page window *)

Section Sorting.
Import Listing Props.
Variable key : string → string.









End Sorting.

Section Paging.
Import PyStr Listing.

Lemma contains_empty (s : string) : contains "" s = true.
Proof. by destruct s. Qed.

Lemma ceil_div_page (n : Z) : (n + PAGE_SIZE - 1) / PAGE_SIZE = Qceiling (n # 20).
Proof.
  unfold Qceiling, Qfloor, Qopp, PAGE_SIZE. cbn [Qnum Qden].
  Z.div_mod_to_equations. lia.
Qed.

Lemma py_slice_window {A} (l : list A) (start len : Z) :
  0 ≤ start → 0 ≤ len →
  py_slice l start (start + len) = take (Z.to_nat len) (drop (Z.to_nat start) l).
Proof.
  intros Hs Hl. unfold py_slice, slice_bound.
  destruct (start <? 0) eqn:E1; [lia|].
  destruct (start + len <? 0) eqn:E2; [lia|].
  destruct (decide (start ≤ Z.of_nat (length l))) as [Hle|Hgt].
  - rewrite (Z.min_l start) by lia.
    apply list_eq. intros i. rewrite !lookup_take, !lookup_drop.
    repeat case_decide; try done; try lia.
    symmetry. apply lookup_ge_None_2. lia.
  - rewrite !drop_ge by lia. by rewrite !take_nil.
Qed.

End Paging.

(** ** The markup of the listing page *)


Section ListingMarkup.
Import PyStr Fs Listing Props.
Context `{Platform}.








End ListingMarkup.

(** ** Rendering the rows *)

Ltac unfold_monad :=
  unfold mbind, Listing.M_bind, Listing.bind, mret, Listing.M_ret, Listing.ret,
    Listing.raise, Listing.lift, Listing.of_result in *.

Section Rendering.
Import PyStr Fs Listing Props.
Context `{Platform}.








End Rendering.

(** ** Query strings and directory enumeration *)

Section QueryFacts.
Import PyStr Query Fs Listing Props.

Lemma add_field_nonempty (d : gmap string (list string)) (nv : string * string) :
  (∀ k, d !! k ≠ Some []) → ∀ k, add_field d nv !! k ≠ Some [].
Proof.
  intros Hd k. unfold add_field.
  destruct (d !! nv.1) as [vs|] eqn:E;
    (destruct (decide (nv.1 = k)) as [->|Hne];
     [rewrite lookup_insert_eq | rewrite lookup_insert_ne by done; apply Hd]).
  - intros [= Hvs]. by destruct vs.
  - done.
Qed.

Lemma parse_qs_nonempty (qs k : string) : parse_qs qs !! k ≠ Some [].
Proof.
  unfold parse_qs. generalize (parse_qsl qs). intros l.
  assert (∀ k, (∅ : gmap string (list string)) !! k ≠ Some []) as H0
    by (intros k'; by rewrite lookup_empty).
  revert H0. generalize (∅ : gmap string (list string)) as d. revert k.
  induction l as [|nv l IH]; intros k d Hd; cbn; [apply Hd|].
  apply IH. by apply add_field_nonempty.
Qed.

Lemma query_components_nonempty (request_path k : string) :
  query_components request_path !! k ≠ Some [].
Proof.
  unfold query_components. destruct (has_char "?" request_path).
  - apply parse_qs_nonempty.
  - by rewrite lookup_empty.
Qed.


Lemma page_param_cases (request_path : string) :
  (∃ page, page_param (query_components request_path) = Ok page)
  ∨ page_param (query_components request_path) = Raise ValueError.
Proof.
  unfold page_param.
  pose proof (query_components_nonempty request_path "page") as Hne.
  destruct (query_components request_path !! "page") as [[|v vs]|]; [done| |by eauto].
  destruct (py_int v); by eauto.
Qed.

End QueryFacts.

Section FsFacts.
Import PyStr Fs.




End FsFacts.

(** ** The page that [list_directory] selects *)

Section Pagination.
Import PyStr Query Fs Listing Props.
Context `{Platform}.

Lemma filter_empty_search (entries : list string) :
  List.filter (λ e, contains "" (lower e)) entries = entries.
Proof.
  induction entries as [|e l IH]; [done|]. cbn [List.filter].
  rewrite contains_empty. by rewrite IH.
Qed.

Lemma select_page_eq (entries : list string) (page : Z) (search : string) :
  let listing := sort_by lower (List.filter (λ e, contains search (lower e)) entries) in
  let total := Z.max 1 (ceil_div (Z.of_nat (length listing)) 20) in
  let P := Z.max 1 (Z.min page total) in
  select_page entries page search
  = (take 20 (drop (Z.to_nat ((P - 1) * 20)) listing), P, total).
Proof.
  intros listing total P. unfold select_page.
  assert ((if bool_decide (search = "") then entries
           else List.filter (λ e, contains search (lower e)) entries)
          = List.filter (λ e, contains search (lower e)) entries) as ->.
  { case_bool_decide as E; [|done]. subst search. by rewrite filter_empty_search. }
  fold listing. rewrite ceil_div_page. fold (ceil_div (Z.of_nat (length listing)) 20).
  fold total. fold P.
  rewrite (py_slice_window listing ((P - 1) * PAGE_SIZE) PAGE_SIZE)
    by (unfold PAGE_SIZE; lia).
  reflexivity.
Qed.

End Pagination.

(** ** Escaping (claim C1) *)

Section EscapeFacts.
Import PyStr.

Lemma replace_char_avoids (c0 c : ascii) (new s : string) :
  has_char c0 new = false → (c = c0 ∨ has_char c0 s = false) →
  has_char c0 (replace_char c new s) = false.
Proof.
  intros Hn Hs. induction s as [|d s IH]; [done|].
  cbn [replace_char]. destruct (Ascii.eqb d c) eqn:E.
  - rewrite has_char_app, Hn. cbn. apply IH. destruct Hs as [->|Hs]; [by left|right].
    cbn in Hs. by apply orb_false_iff in Hs as [_ ?].
  - cbn [has_char]. apply orb_false_iff. split.
    + destruct Hs as [->|Hs]; [done|].
      cbn in Hs. by apply orb_false_iff in Hs as [? _].
    + apply IH. destruct Hs as [->|Hs]; [by left|right].
      cbn in Hs. by apply orb_false_iff in Hs as [_ ?].
Qed.

Lemma escape_neutralises (s : string) (q : bool) :
  has_char "<" (escape s q) = false ∧ has_char ">" (escape s q) = false
  ∧ (q = true → has_char dquote (escape s q) = false
                ∧ has_char "'" (escape s q) = false).
Proof.
  unfold escape.
  repeat split; try intros ->; try destruct q;
    repeat (apply replace_char_avoids; [done|first [by left|right]]).
Qed.

End EscapeFacts.

Section ClaimC1.
Import PyStr Fs Listing Props.
Context `{Platform}.


End ClaimC1.

Import PyStr Fs Listing Props.


(** ** Pagination (claims C2, C7, C9) *)

Section ClaimC2.
Import PyStr Query Fs Listing Props.
Context `{Platform}.



End ClaimC2.

Import PyStr Query Fs Listing Props.


(** The order the claim gives is not the sorted one. *)
Lemma search_listing_order_counterexample :
  (select_page (H := Demo.platform true) ["Test.txt"; "alpha"; "TABLE.csv"] 1 "t").1.1
  ≠ ["Test.txt"; "TABLE.csv"].
Proof. vm_compute. discriminate. Qed.

Section ClaimC7.
Context `{Platform}.

(** C7 (amended).  With the term ["t"], the entries
    [["Test.txt"; "alpha"; "TABLE.csv"]] are filtered down to the two
    whose lower-cased name contains ["t"], and the listing shows them
    sorted by lower-cased name: ["TABLE.csv"] before ["Test.txt"]. *)
Theorem search_listing_sorted (page : Z) :
  lower "Test.txt" = "test.txt" → lower "alpha" = "alpha" →
  lower "TABLE.csv" = "table.csv" →
  List.filter (λ e, contains "t" (lower e)) ["Test.txt"; "alpha"; "TABLE.csv"]
  = ["Test.txt"; "TABLE.csv"]
  ∧ select_page ["Test.txt"; "alpha"; "TABLE.csv"] page "t"
    = (["TABLE.csv"; "Test.txt"], 1, 1).
Proof.
  intros H1 H2 H3.
  assert (List.filter (λ e, contains "t" (lower e)) ["Test.txt"; "alpha"; "TABLE.csv"]
          = ["Test.txt"; "TABLE.csv"]) as Hf.
  { cbn [List.filter]. rewrite H1, H2, H3. reflexivity. }
  split; [exact Hf|].
  rewrite select_page_eq. cbv zeta. rewrite Hf.
  assert (sort_by lower ["Test.txt"; "TABLE.csv"] = ["TABLE.csv"; "Test.txt"]) as ->.
  { unfold sort_by. cbn [foldr insert_by]. rewrite H1, H3. reflexivity. }
  replace (Z.max 1 (Z.min page (Z.max 1 (ceil_div (Z.of_nat (length ["TABLE.csv"; "Test.txt"])) 20))))
    with 1 by (change (ceil_div _ 20) with 1; lia).
  reflexivity.
Qed.

End ClaimC7.

Lemma search_listing_sorted_witness :
  select_page (H := Demo.platform true) ["Test.txt"; "alpha"; "TABLE.csv"] 1 "t"
  = (["TABLE.csv"; "Test.txt"], 1, 1).
Proof.
  apply (search_listing_sorted (H := Demo.platform true) 1); reflexivity.
Defined.

Section ClaimC9.
Context `{Platform}.


End ClaimC9.


(** A blank [page=] is dropped by [parse_qs], so the default page 1 is
    used and nothing is raised. *)
Example blank_page_is_default :
  page_param (query_components "/?page=") = Ok 1.
Proof. vm_compute. reflexivity. Qed.

(** ** The size cache (claim C4) *)

Section SizeCacheFacts.
Import Fs SizeCache.

Lemma lru_find_head (k : cache_key) (v : Z) (c : list (cache_key * Z)) :
  lru_find k ((k, v) :: c) = Some v.
Proof. unfold lru_find. cbn. by rewrite bool_decide_eq_true_2. Qed.

Lemma lru_find_cons_ne (k k' : cache_key) (v : Z) (c : list (cache_key * Z)) :
  k' ≠ k → lru_find k ((k', v) :: c) = lru_find k c.
Proof. intros Hne. unfold lru_find. cbn. by rewrite bool_decide_eq_false_2. Qed.

Lemma lru_find_none (k : cache_key) (c : list (cache_key * Z)) :
  lru_find k c = None ↔ ∀ e, e ∈ c → e.1 ≠ k.
Proof.
  unfold lru_find. induction c as [|[k' v] c IH]; cbn.
  - split; [|done]. intros _ e He. by apply elem_of_nil in He.
  - case_bool_decide as E; cbn in *.
    + split; [done|]. intros Hall. exfalso. by apply (Hall (k', v)); [left|].
    + rewrite IH. split.
      * intros Hall e [->|He]%elem_of_cons; [done|by apply Hall].
      * intros Hall e He. apply Hall. by right.
Qed.

Lemma lru_find_none_take (k : cache_key) (n : nat) (c : list (cache_key * Z)) :
  lru_find k c = None → lru_find k (take n c) = None.
Proof.
  rewrite !lru_find_none. intros Hall e He. apply Hall.
  by eapply subseteq_take.
Qed.

Lemma lru_find_none_remove (k k' : cache_key) (c : list (cache_key * Z)) :
  lru_find k c = None → lru_find k (lru_remove k' c) = None.
Proof.
  rewrite !lru_find_none. intros Hall e He. apply Hall.
  unfold lru_remove in He. by apply list_elem_of_In, filter_In in He as [?%list_elem_of_In _].
Qed.

(** After a call for a key, that key is the most recently used entry. *)
Lemma cached_call_head f self path mtime s :
  ∃ c, lru (_cached_get_directory_size f self path mtime s).2
       = (mk_key self path mtime,
          (_cached_get_directory_size f self path mtime s).1) :: c.
Proof.
  unfold _cached_get_directory_size. cbv zeta.
  destruct (lru_find _ _) as [v|]; cbn; by eexists.
Qed.

Lemma cached_call_hit f self path mtime s v c :
  lru s = (mk_key self path mtime, v) :: c →
  (_cached_get_directory_size f self path mtime s).1 = v
  ∧ trace (_cached_get_directory_size f self path mtime s).2 = trace s.
Proof.
  intros Hc. unfold _cached_get_directory_size. cbv zeta.
  by rewrite Hc, lru_find_head.
Qed.

Lemma cached_call_miss f self path mtime s :
  lru_find (mk_key self path mtime) (lru s) = None →
  _cached_get_directory_size f self path mtime s
  = (walk_size f path,
     mk_state (take maxsize ((mk_key self path mtime, walk_size f path) :: lru s))
       (EvWalk path :: trace s)).
Proof. intros Hc. unfold _cached_get_directory_size. cbv zeta. by rewrite Hc. Qed.

(** The same handler object asking twice: the second call is a stat
    and a cache hit. *)
Lemma get_directory_size_same_handler f self path s :
  let r1 := get_directory_size f self path s in
  let r2 := get_directory_size f self path r1.2 in
  r2.1 = r1.1 ∧ trace r2.2 = EvStat path :: trace r1.2.
Proof.
  cbv zeta. unfold get_directory_size. cbv zeta.
  destruct (stat f path) as [st|]; [|done].
  set (s0 := mk_state (lru s) (EvStat path :: trace s)).
  destruct (cached_call_head f self path (st_mtime st) s0) as [c Hc].
  set (r1 := _cached_get_directory_size f self path (st_mtime st) s0) in *.
  apply (cached_call_hit f self path (st_mtime st)
           (mk_state (lru r1.2) (EvStat path :: trace r1.2)) r1.1 c Hc).
Qed.

End SizeCacheFacts.

Section ClaimC4.
Import Fs SizeCache.

(** C4, as the code has it.  The cache key holds the handler object,
    so a call made by another handler object finds no entry: on a
    directory nobody touched in between it returns the same total, but
    only after walking the directory again. *)
Theorem size_cache_misses_across_handlers
    (f : gmap string node) (h1 h2 : handler_id) (path : string) (mtime : Z)
    (s : state) :
  f !! path = Some (Directory mtime) →
  h1 ≠ h2 →
  lru_find (mk_key h1 path mtime) (lru s) = None →
  lru_find (mk_key h2 path mtime) (lru s) = None →
  let r1 := get_directory_size f h1 path s in
  let r2 := get_directory_size f h2 path r1.2 in
  r2.1 = r1.1
  ∧ trace r2.2 = EvWalk path :: EvStat path :: trace r1.2.
Proof.
  intros Hdir Hne H1 H2. cbv zeta. unfold get_directory_size, stat.
  rewrite Hdir. cbv zeta. cbn [st_mtime].
  rewrite (cached_call_miss f h1) by done. cbn [fst snd lru trace].
  rewrite (cached_call_miss f h2); [done|]. cbn [lru].
  apply lru_find_none_take. rewrite lru_find_cons_ne; [done|].
  intros [=]. done.
Qed.

End ClaimC4.

Import Fs SizeCache.

Lemma size_cache_misses_across_handlers_witness :
  trace (get_directory_size Demo.tree 2%nat "/srv/alpha"
           (get_directory_size Demo.tree 1%nat "/srv/alpha" initial).2).2
  = [EvWalk "/srv/alpha"; EvStat "/srv/alpha"; EvWalk "/srv/alpha"; EvStat "/srv/alpha"].
Proof.
  pose proof (size_cache_misses_across_handlers Demo.tree 1%nat 2%nat "/srv/alpha" 20
                initial) as Hw.
  cbv zeta in Hw. destruct Hw as [_ Hw].
  - vm_compute. reflexivity.
  - discriminate.
  - reflexivity.
  - reflexivity.
  - rewrite Hw. vm_compute. reflexivity.
Defined.

(** ** Streaming (claims C8, C5, C10) *)

Section CopyLoop.
Import PyStr Streamer Props.

Lemma copy_chunks_unfold (size : Z) (f : string) (wfile : list string) :
  copy_chunks size f wfile
  = match str_take (Z.to_nat size) f with
    | "" => wfile
    | chunk => copy_chunks size (str_drop (Z.to_nat size) f) (wfile ++ [chunk])
    end.
Proof.
  funelim (copy_chunks size f wfile).
  all: match goal with E : str_take _ _ = _ |- _ => by rewrite E end.
Qed.

(** The chunks written for a file [f], read [n] bytes at a time: what
    the loop appends to [wfile]. *)
Lemma copy_chunks_acc (size : Z) (f : string) (wfile : list string) :
  copy_chunks size f wfile = wfile ++ copy_chunks size f [].
Proof.
  remember (String.length f) as len eqn:Hlen.
  revert f wfile Hlen. induction (lt_wf len) as [len _ IH]. intros f wfile ->.
  rewrite (copy_chunks_unfold size f wfile), (copy_chunks_unfold size f []).
  destruct (str_take (Z.to_nat size) f) as [|c chunk] eqn:Et; [by rewrite app_nil_r|].
  assert (String.length (str_drop (Z.to_nat size) f) < String.length f)%nat as Hlt.
  { rewrite str_drop_length. destruct (Z.to_nat size), f; try discriminate Et.
    cbn. lia. }
  rewrite (IH _ Hlt _ (wfile ++ [String c chunk]) eq_refl).
  rewrite (IH _ Hlt _ ([] ++ [String c chunk]) eq_refl).
  by rewrite <- app_assoc.
Qed.

Lemma copy_chunks_step (size : Z) (f : string) :
  0 < size → f ≠ "" →
  copy_chunks size f []
  = str_take (Z.to_nat size) f :: copy_chunks size (str_drop (Z.to_nat size) f) [].
Proof.
  intros Hs Hf. rewrite (copy_chunks_unfold size f []).
  destruct (str_take (Z.to_nat size) f) as [|c chunk] eqn:Et.
  - destruct (Z.to_nat size) eqn:En; [lia|]. by destruct f.
  - by rewrite copy_chunks_acc.
Qed.

Lemma copy_chunks_nil (size : Z) : copy_chunks size "" [] = [].
Proof. rewrite copy_chunks_unfold. by destruct (Z.to_nat size). Qed.

(** Induction along the loop. *)
Lemma copy_chunks_ind (size : Z) (Q : string → list string → Prop) :
  0 < size →
  Q "" [] →
  (∀ f, f ≠ "" →
        Q (str_drop (Z.to_nat size) f) (copy_chunks size (str_drop (Z.to_nat size) f) []) →
        Q f (str_take (Z.to_nat size) f
             :: copy_chunks size (str_drop (Z.to_nat size) f) [])) →
  ∀ f, Q f (copy_chunks size f []).
Proof.
  intros Hs H0 Hstep f.
  remember (String.length f) as len eqn:Hlen.
  revert f Hlen. induction (lt_wf len) as [len _ IH]. intros f ->.
  destruct (decide (f = "")) as [->|Hf]; [by rewrite copy_chunks_nil|].
  rewrite copy_chunks_step by done. apply Hstep; [done|].
  eapply IH; [|reflexivity].
  rewrite str_drop_length. destruct f; [done|]. cbn. lia.
Qed.

Lemma copy_chunks_join (size : Z) (f : string) :
  0 < size → join (copy_chunks size f []) = f.
Proof.
  intros Hs. apply (copy_chunks_ind size (λ f chunks, join chunks = f)); [done..|].
  intros g Hg IH. rewrite join_cons, IH. apply str_take_drop.
Qed.

Lemma copy_chunks_lookup (size : Z) (f : string) (i : nat) (c : string) :
  0 < size →
  copy_chunks size f [] !! i = Some c →
  c ≠ "" ∧ c = str_take (Z.to_nat size) (str_drop (i * Z.to_nat size) f).
Proof.
  intros Hs. revert i c.
  apply (copy_chunks_ind size (λ f chunks, ∀ i c, chunks !! i = Some c →
    c ≠ "" ∧ c = str_take (Z.to_nat size) (str_drop (i * Z.to_nat size) f))); [done..|].
  intros g Hg IH [|i] c.
  - intros [= <-]. split; [|done].
    destruct (Z.to_nat size) eqn:En; [lia|]. by destruct g.
  - cbn [lookup list_lookup]. intros Hc. apply IH in Hc as [Hne ->]. split; [done|].
    by rewrite str_drop_drop.
Qed.

Lemma ceil_div_eq (n : Z) (d : positive) : ceil_div n d = (n + Z.pos d - 1) / Z.pos d.
Proof.
  unfold ceil_div, Qceiling, Qfloor, Qopp. cbn [Qnum Qden].
  Z.div_mod_to_equations. nia.
Qed.

Lemma copy_chunks_count (size : positive) (f : string) :
  Z.of_nat (length (copy_chunks (Z.pos size) f []))
  = ceil_div (Z.of_nat (String.length f)) size.
Proof.
  rewrite ceil_div_eq.
  apply (copy_chunks_ind (Z.pos size) (λ f chunks,
    Z.of_nat (length chunks)
    = (Z.of_nat (String.length f) + Z.pos size - 1) / Z.pos size)); [done| |].
  - cbn. symmetry. apply Z.div_small. lia.
  - intros g Hg IH. cbn [length]. rewrite Nat2Z.inj_succ, IH.
    rewrite str_drop_length.
    assert (0 < String.length g)%nat by (destruct g; [done|cbn; lia]).
    destruct (decide (String.length g ≤ Z.to_nat (Z.pos size))%nat) as [Hle|Hgt].
    + replace (String.length g - Z.to_nat (Z.pos size))%nat with 0%nat by lia.
      change (Z.of_nat 0) with 0.
      rewrite (Z.div_small (0 + Z.pos size - 1)) by lia.
      apply Z.div_unique with (r := Z.of_nat (String.length g) - 1); lia.
    + rewrite Nat2Z.inj_sub by lia. rewrite Z2Nat.id by lia.
      rewrite <- Z.add_1_r, <- Z.div_add by lia. f_equal. lia.
Qed.

Lemma copy_chunks_lengths (size : Z) (f : string) (i : nat) (c : string) :
  0 < size →
  copy_chunks size f [] !! i = Some c →
  (0 < String.length c ≤ Z.to_nat size)%nat
  ∧ (is_Some (copy_chunks size f [] !! S i) → String.length c = Z.to_nat size).
Proof.
  intros Hs Hc. pose proof (copy_chunks_lookup size f i c Hs Hc) as [Hne Hceq].
  assert (String.length c = Nat.min (Z.to_nat size)
            (String.length f - i * Z.to_nat size)) as Hlen.
  { by rewrite Hceq, str_take_length, str_drop_length. }
  split.
  - split; [destruct c; [done|cbn; lia]|lia].
  - intros [c' Hc'].
    pose proof (copy_chunks_lookup size f (S i) c' Hs Hc') as [Hne' Hceq'].
    assert (0 < String.length c')%nat as Hpos by (destruct c'; [done|cbn; lia]).
    rewrite Hceq', str_take_length, str_drop_length in Hpos.
    generalize dependent (Z.to_nat size). intros n. intros. nia.
Qed.

End CopyLoop.

Section StreamerFacts.
Import PyStr Query Fs Listing Streamer Props.
Context `{Platform}.

Lemma serve_file_content_regular (f : gmap string node) (path : string)
    (mtime : Z) (data : string) :
  f !! path = Some (RegFile mtime data) →
  _serve_file_content f path
  = Response 200
      [("Content-type", "text/plain"); ("Content-Encoding", "identity");
       ("Cache-Control", "no-cache")]
      (copy_chunks FILE_CHUNK_SIZE data []).
Proof.
  intros Hf. unfold _serve_file_content, is_file, read_bytes. by rewrite Hf.
Qed.

End StreamerFacts.

Section ClaimC8.
Import PyStr Query Fs Listing Streamer Props.
Context `{Platform}.

(** C8.  A content-fetch request without [render=html] for a regular
    file is answered 200 [text/plain] with the file cut into chunks of
    [FILE_CHUNK_SIZE] = 16 KiB: chunk [i] is the bytes from [i * C],
    every chunk is non-empty, all but the last are exactly [C] bytes,
    and the chunks concatenated are the file.  A file of [S] bytes
    goes out in [ceil(S / C)] chunks: 0, 1, 1, 2 and 10 of them for
    [S] = 0, [C - 1], [C], [C + 1] and [10 * C]. *)
Theorem content_fetch_streams_file
    (f : gmap string node) (request_path path mime_type : string)
    (mtime : Z) (data : string) :
  f !! path = Some (RegFile mtime data) →
  first_value (query_components request_path) "action" = Some "get_content" →
  first_value (query_components request_path) "render" ≠ Some "html" →
  ∃ chunks : list string,
    handle_text_file f request_path path mime_type
    = Response 200
        [("Content-type", "text/plain"); ("Content-Encoding", "identity");
         ("Cache-Control", "no-cache")]
        chunks
    ∧ join chunks = data
    ∧ (∀ (i : nat) (c : string), chunks !! i = Some c →
         c = str_take (Z.to_nat FILE_CHUNK_SIZE)
               (str_drop (i * Z.to_nat FILE_CHUNK_SIZE) data)
         ∧ (0 < String.length c ≤ Z.to_nat FILE_CHUNK_SIZE)%nat
         ∧ (is_Some (chunks !! S i) → String.length c = Z.to_nat FILE_CHUNK_SIZE))
    ∧ Z.of_nat (length chunks) = ceil_div (Z.of_nat (String.length data)) 16384
    ∧ (let bytes := Z.of_nat (String.length data) in
       let count := Z.of_nat (length chunks) in
       (bytes = 0 → count = 0) ∧ (bytes = FILE_CHUNK_SIZE - 1 → count = 1)
       ∧ (bytes = FILE_CHUNK_SIZE → count = 1)
       ∧ (bytes = FILE_CHUNK_SIZE + 1 → count = 2)
       ∧ (bytes = 10 * FILE_CHUNK_SIZE → count = 10)).
Proof.
  intros Hf Haction Hrender.
  exists (copy_chunks FILE_CHUNK_SIZE data []).
  assert (0 < FILE_CHUNK_SIZE) as Hpos by done.
  split.
  { unfold handle_text_file. cbv zeta.
    rewrite bool_decide_eq_true_2 by done.
    rewrite (bool_decide_eq_false_2 _ Hrender). cbn [andb].
    by eapply serve_file_content_regular. }
  split; [by apply copy_chunks_join|].
  split.
  { intros i c Hc. split; [by eapply copy_chunks_lookup|].
    by apply copy_chunks_lengths. }
  assert (Z.of_nat (length (copy_chunks FILE_CHUNK_SIZE data []))
          = ceil_div (Z.of_nat (String.length data)) 16384) as Hn
    by apply (copy_chunks_count 16384).
  split; [exact Hn|]. cbv zeta. rewrite Hn, ceil_div_eq.
  change FILE_CHUNK_SIZE with 16384.
  repeat split; intros ->; reflexivity.
Qed.

End ClaimC8.

Import PyStr Query Fs Listing Streamer Props.

Lemma content_fetch_streams_file_witness :
  ∃ chunks,
    handle_text_file (H := Demo.platform true) Demo.tree
      "/Test.txt?action=get_content" "/srv/Test.txt" "text/plain"
    = Response 200
        [("Content-type", "text/plain"); ("Content-Encoding", "identity");
         ("Cache-Control", "no-cache")]
        chunks
    ∧ join chunks = "hello".
Proof.
  destruct (content_fetch_streams_file (H := Demo.platform true) Demo.tree
              "/Test.txt?action=get_content" "/srv/Test.txt" "text/plain" 10 "hello")
    as (chunks & Hr & Hj & _).
  - vm_compute. reflexivity.
  - vm_compute. reflexivity.
  - vm_compute. discriminate.
  - exists chunks. by split.
Defined.

Section ClaimC5.
Context `{Platform}.

(** C5, as the code has it.  [handle_text_file] hands a request to
    the Markdown renderer only when the [markdown] library is there;
    without it a [render=html] request is served by the plain streamer
    like any content fetch, and a file that exists is answered 200
    [text/plain] with its raw bytes.  The 500 reply inside
    [_serve_file_content_as_html] is never reached from here. *)
Theorem render_request_without_markdown
    (f : gmap string node) (request_path path mime_type : string)
    (mtime : Z) (data : string) :
  MARKDOWN_AVAILABLE = false →
  first_value (query_components request_path) "action" = Some "get_content" →
  first_value (query_components request_path) "render" = Some "html" →
  lower (path_suffix path) = ".md" →
  f !! path = Some (RegFile mtime data) →
  _serve_file_content_as_html f path
  = SendError 500
      "Markdown rendering not available. Please install the 'markdown' package."
  ∧ handle_text_file f request_path path mime_type
    = Response 200
        [("Content-type", "text/plain"); ("Content-Encoding", "identity");
         ("Cache-Control", "no-cache")]
        (copy_chunks FILE_CHUNK_SIZE data [])
  ∧ join (copy_chunks FILE_CHUNK_SIZE data []) = data.
Proof.
  intros Hmd Haction Hrender Hsuffix Hf. split; [|split].
  - unfold _serve_file_content_as_html. by rewrite Hmd.
  - unfold handle_text_file. cbv zeta.
    rewrite bool_decide_eq_true_2 by done. rewrite Hmd, andb_false_r. cbn [andb].
    by eapply serve_file_content_regular.
  - by apply copy_chunks_join.
Qed.

End ClaimC5.

Lemma render_request_without_markdown_witness :
  handle_text_file (H := Demo.platform false) Demo.tree
    "/alpha/notes.md?action=get_content&render=html" "/srv/alpha/notes.md"
    "text/markdown"
  = Response 200
      [("Content-type", "text/plain"); ("Content-Encoding", "identity");
       ("Cache-Control", "no-cache")]
      ["# title"].
Proof.
  destruct (render_request_without_markdown (H := Demo.platform false) Demo.tree
              "/alpha/notes.md?action=get_content&render=html" "/srv/alpha/notes.md"
              "text/markdown" 40 "# title") as (_ & Hr & _).
  - reflexivity.
  - vm_compute. reflexivity.
  - vm_compute. reflexivity.
  - vm_compute. reflexivity.
  - vm_compute. reflexivity.
  - rewrite Hr. vm_compute. reflexivity.
Defined.

Section ClaimC10.
Context `{Platform}.

(** C10.  A content-fetch request with [render=html] for a file whose
    extension is not [.md] is not an error: it is served by the plain
    streamer, 200 [text/plain] with the raw bytes, the same reply as
    for a content-fetch request without [render=html]. *)
Theorem render_flag_ignored_for_other_files
    (f : gmap string node) (request_path path mime_type : string)
    (mtime : Z) (data : string) :
  first_value (query_components request_path) "action" = Some "get_content" →
  first_value (query_components request_path) "render" = Some "html" →
  lower (path_suffix path) ≠ ".md" →
  f !! path = Some (RegFile mtime data) →
  handle_text_file f request_path path mime_type
  = Response 200
      [("Content-type", "text/plain"); ("Content-Encoding", "identity");
       ("Cache-Control", "no-cache")]
      (copy_chunks FILE_CHUNK_SIZE data [])
  ∧ join (copy_chunks FILE_CHUNK_SIZE data []) = data
  ∧ ∀ plain_request : string,
      first_value (query_components plain_request) "action" = Some "get_content" →
      first_value (query_components plain_request) "render" ≠ Some "html" →
      handle_text_file f plain_request path mime_type
      = handle_text_file f request_path path mime_type.
Proof.
  intros Haction Hrender Hsuffix Hf.
  assert (handle_text_file f request_path path mime_type = _serve_file_content f path)
    as Hserve.
  { unfold handle_text_file. cbv zeta.
    rewrite bool_decide_eq_true_2 by done.
    rewrite (bool_decide_eq_false_2 _ Hsuffix), andb_false_r. done. }
  split; [|split].
  - rewrite Hserve. by eapply serve_file_content_regular.
  - by apply copy_chunks_join.
  - intros plain_request Ha Hr. rewrite Hserve.
    unfold handle_text_file. cbv zeta.
    rewrite bool_decide_eq_true_2 by done.
    by rewrite (bool_decide_eq_false_2 _ Hr).
Qed.

End ClaimC10.

Lemma render_flag_ignored_for_other_files_witness :
  handle_text_file (H := Demo.platform true) Demo.tree
    "/TABLE.csv?action=get_content&render=html" "/srv/TABLE.csv" "text/csv"
  = Response 200
      [("Content-type", "text/plain"); ("Content-Encoding", "identity");
       ("Cache-Control", "no-cache")]
      ["a,b"].
Proof.
  destruct (render_flag_ignored_for_other_files (H := Demo.platform true) Demo.tree
              "/TABLE.csv?action=get_content&render=html" "/srv/TABLE.csv"
              "text/csv" 30 "a,b") as (Hr & _).
  - vm_compute. reflexivity.
  - vm_compute. reflexivity.
  - vm_compute. discriminate.
  - vm_compute. reflexivity.
  - rewrite Hr. vm_compute. reflexivity.
Defined.

(** ** The archive builder (claims C3, C6) *)

Section PathFacts.
Import PyStr Fs Props.





End PathFacts.

Section ReplayFacts.
Import PyStr Fs Archive Props.





End ReplayFacts.

Section BuildFacts.
Import PyStr Fs Archive Props.
Context `{Platform}.
Variable sc : scenario.
Variable temp : string.

Lemma reaches_refl (w : world) : reaches (now sc) temp w w.
Proof. exists []. by rewrite app_nil_r. Qed.

Lemma reaches_do_op (w w' : world) (op : fs_op) :
  reaches (now sc) temp w w' → writes_only temp op →
  reaches (now sc) temp w (do_op sc op w').
Proof.
  intros (ops & Hh & Hf & Hops) Hop. exists (ops ++ [op]). cbn.
  rewrite Hh, Hf, foldl_app, app_assoc. split; [done|]. split; [done|].
  apply Forall_app_2; [done|by constructor].
Qed.

Lemma write_members_reaches (directory : string) (paths : list string) (i : nat)
    (members : list (string * string)) (w0 w : world) :
  reaches (now sc) temp w0 w →
  match write_members sc directory temp paths i members w with
  | inl w' => reaches (now sc) temp w0 w'
  | inr (_, w') => reaches (now sc) temp w0 w'
  end.
Proof.
  revert i members w. induction paths as [|p paths IH]; intros i members w Hw; [done|].
  cbn [write_members]. destruct (member_fault sc i) as [junk|].
  - by apply reaches_do_op.
  - destruct (is_file (files w) p); apply IH; [|done]. by apply reaches_do_op.
Qed.

Lemma write_members_content (directory : string) (paths : list string) (i : nat)
    (members ms : list (string * string)) (w w' : world) (t : Z) :
  files w !! temp
  = Some (RegFile t (join ((λ m, zip_local_record m.1 m.2) <$> members))) →
  write_members sc directory temp paths i members w = inr (ms, w') →
  ∃ t', files w' !! temp
        = Some (RegFile t' (join ((λ m, zip_local_record m.1 m.2) <$> ms))).
Proof.
  revert i members w t. induction paths as [|p paths IH]; intros i members w t Hc.
  - cbn. intros [= <- <-]. by eexists.
  - cbn [write_members]. destruct (member_fault sc i) as [junk|]; [done|].
    destruct (is_file (files w) p); [|by eapply IH].
    eapply IH. cbn [do_op files apply_op]. rewrite Hc, lookup_insert_eq.
    rewrite fmap_app, join_app. reflexivity.
Qed.

End BuildFacts.

Section CreateZip.
Import PyStr Fs Archive Props.
Context `{Platform}.


Lemma build_spec (sc : scenario) (directory zip_name : string) (w : world) :
  match build sc directory zip_name w with
  | inl (None, w') =>
      w' = w
      ∧ with_suffix zip_name (path_suffix zip_name +:+ ".tmp_" +:+ str_of_int getpid)
        = None
  | inl (Some temp, w') =>
      with_suffix zip_name (path_suffix zip_name +:+ ".tmp_" +:+ str_of_int getpid)
      = Some temp
      ∧ reaches (now sc) temp w w'
  | inr w' =>
      ∃ temp w1 mtime members,
        with_suffix zip_name (path_suffix zip_name +:+ ".tmp_" +:+ str_of_int getpid)
        = Some temp
        ∧ reaches (now sc) temp w w1
        ∧ files w1 !! temp = Some (RegFile mtime (archive_bytes members))
        ∧ w' = do_op sc (OpRename temp zip_name) w1
  end.
Proof.
  unfold build. cbv zeta.
  destruct (with_suffix zip_name _) as [temp|] eqn:Et; [|done].
  set (w1 := do_op sc (OpCreate temp) w).
  assert (reaches (now sc) temp w w1) as Hw1
    by (apply reaches_do_op; [apply reaches_refl|done]).
  assert (files w1 !! temp
          = Some (RegFile (now sc) (join ((λ m, zip_local_record m.1 m.2) <$> []))))
    as Hc1 by (cbn; by rewrite lookup_insert_eq).
  pose proof (write_members_reaches sc temp directory
                (rglob (files w1) directory) 0 [] w w1 Hw1) as Hreach.
  pose proof (write_members_content sc temp directory
                (rglob (files w1) directory) 0 [] ) as Hcontent.
  destruct (write_members sc directory temp (rglob (files w1) directory) 0 [] w1)
    as [w2|[members w2]] eqn:Ew.
  - destruct (build_fault sc) as [[]|]; (split; [done|]);
      first [apply reaches_refl | done].
  - destruct (Hcontent members w1 w2 (now sc) Hc1 Ew) as [t2 Hc2].
    set (w3 := do_op sc (OpAppend temp (zip_central_directory members)) w2).
    assert (reaches (now sc) temp w w3) as Hw3 by (by apply reaches_do_op).
    assert (files w3 !! temp = Some (RegFile (now sc) (archive_bytes members))) as Hc3.
    { cbn. rewrite Hc2. by rewrite lookup_insert_eq. }
    destruct (build_fault sc) as [[| | |]|];
      first [ by eexists _, _, _, _
            | split; [done|];
              first [apply reaches_refl | by apply reaches_do_op | done] ].
Qed.


(** C6.  When something already exists at [zip_name], [create_zip]
    returns success at once: no filesystem call is made and the disk is
    left as it was, whatever the source directory holds now and
    whatever would have failed in a build. *)
Theorem create_zip_reuses_existing
    (sc : scenario) (directory zip_name : string) (w : world) :
  is_Some (files w !! zip_name) →
  create_zip sc directory zip_name w = (true, w).
Proof.
  intros Hex. unfold create_zip, exists_. by rewrite bool_decide_eq_true_2.
Qed.


End CreateZip.

Section ArchiveExamples.
Import PyStr Fs Archive Props.

Lemma create_zip_reuses_existing_witness :
  create_zip (H := Demo.platform true) (mk_scenario (Some FailOpen) true 99)
    "/srv/alpha" "/srv/TABLE.csv" (mk_world Demo.tree [])
  = (true, mk_world Demo.tree []).
Proof.
  apply (create_zip_reuses_existing (H := Demo.platform true)).
  vm_compute. by eexists.
Defined.


(** A build with no fault: the archive is in place, the temporary file
    is gone, and the rename came last. *)
Example create_zip_success :
  let r := create_zip (H := Demo.platform true) (mk_scenario None false 99)
             "/srv/alpha" "/srv/alpha.zip" (mk_world Demo.tree []) in
  r.1 = true
  ∧ last (history r.2) = Some (OpRename "/srv/alpha.zip.tmp_4242" "/srv/alpha.zip")
  ∧ files r.2 !! "/srv/alpha.zip.tmp_4242" = None
  ∧ files r.2 !! "/srv/alpha.zip"
    = Some (RegFile 99
        "PK34notes.md:# titlePK34deep/data.bin:12345PK12notes.md,deep/data.binPK56").
Proof. vm_compute. repeat split. Qed.

(** When the clean-up itself raises, the failure is still reported but
    the temporary file stays behind; the target stays absent. *)
Example create_zip_cleanup_can_fail :
  let r := create_zip (H := Demo.platform true) (mk_scenario (Some FailMove) true 99)
             "/srv/alpha" "/srv/alpha.zip" (mk_world Demo.tree []) in
  r.1 = false
  ∧ is_Some (files r.2 !! "/srv/alpha.zip.tmp_4242")
  ∧ files r.2 !! "/srv/alpha.zip" = None.
Proof. vm_compute. split; [done|]. split; [by eexists|done]. Qed.

End ArchiveExamples.

(** * Further properties

    What follows covers the parts of [server.py] around the ones
    above: the size text, the pagination bar and its links, the cache
    over time, the viewers, the archive's content, the request router
    and the start-up loop. *)

(** ** The size text *)

Section SizeText.
Import PyStr Listing.





End SizeText.


(** ** The pagination bar *)

Section PaginationLinks.
Import PyStr Listing Props.

(** X2.  For a page within [[1, total_pages]] every item of the
    pagination bar is either a [span] or a link to a page [p] other
    than the current one, with [1 <= p <= total_pages], that is the
    first page, the last page or at most two pages away; and each
    such page has its link. *)
Theorem pagination_links_in_range (page total_pages : Z) (search : string) :
  1 ≤ page ≤ total_pages →
  Forall (λ item,
            String.prefix "<span" item = true
            ∨ ∃ p label, item = page_link p search label
                         ∧ 1 ≤ p ≤ total_pages ∧ p ≠ page
                         ∧ (page - 2 ≤ p ≤ page + 2 ∨ p = 1 ∨ p = total_pages))
         (pagination page total_pages search)
  ∧ ∀ p, 1 ≤ p ≤ total_pages → p ≠ page →
         page - 2 ≤ p ≤ page + 2 ∨ p = 1 ∨ p = total_pages →
         ∃ label, page_link p search label ∈ pagination page total_pages search.
Proof.
  intros Hpage. unfold pagination. cbv zeta.
  set (middle := (λ p, if bool_decide (p = page) then _ else _)
                 <$> range (Z.max 1 (page - 2)) (Z.min total_pages (page + 2) + 1)).
  assert (Forall (λ item,
            String.prefix "<span" item = true
            ∨ ∃ p label, item = page_link p search label
                         ∧ 1 ≤ p ≤ total_pages ∧ p ≠ page
                         ∧ (page - 2 ≤ p ≤ page + 2 ∨ p = 1 ∨ p = total_pages))
           middle) as Hmid.
  { apply Forall_fmap, Forall_forall. intros p [Hlo Hhi]%elem_of_seqZ. cbn.
    case_bool_decide; [by left|right]. exists p, (str_of_int p). split; [done|]. lia. }
  assert (∀ p, Z.max 1 (page - 2) ≤ p ≤ Z.min total_pages (page + 2) → p ≠ page →
               page_link p search (str_of_int p) ∈ middle) as Hin.
  { intros p Hp Hne. apply list_elem_of_fmap. exists p.
    rewrite bool_decide_eq_false_2 by done. split; [done|].
    apply elem_of_seqZ. lia. }
  clearbody middle.
  split.
  - repeat match goal with
           | |- context [?a <? ?b] => destruct (Z.ltb_spec a b)
           end;
      repeat (apply Forall_app_2 || apply Forall_cons_2 || apply Forall_nil_2
              || exact Hmid);
      first [ by left | right; eexists _, _; split; [reflexivity|lia] ].
  - intros p Hp Hne Hnear.
    destruct (decide (Z.max 1 (page - 2) ≤ p ≤ Z.min total_pages (page + 2))) as [Hm|Hm].
    + exists (str_of_int p). specialize (Hin p Hm Hne).
      repeat match goal with
             | |- context [?a <? ?b] => destruct (Z.ltb_spec a b)
             end; rewrite ?elem_of_app; tauto.
    + assert (p = 1 ∧ 1 < Z.max 1 (page - 2)
              ∨ p = total_pages ∧ Z.min total_pages (page + 2) < total_pages)
        as [[-> Hc]|[-> Hc]] by lia.
      * exists "1".
        repeat match goal with
               | |- context [?a <? ?b] => destruct (Z.ltb_spec a b)
               end; try lia; rewrite ?elem_of_app, ?elem_of_cons; tauto.
      * exists (str_of_int total_pages).
        repeat match goal with
               | |- context [?a <? ?b] => destruct (Z.ltb_spec a b)
               end; try lia; rewrite ?elem_of_app, ?elem_of_cons; tauto.
Qed.

End PaginationLinks.

Lemma pagination_links_in_range_witness :
  ∃ label, Listing.page_link 9 "a b" label ∈ Listing.pagination 5 9 "a b".
Proof.
  apply (pagination_links_in_range 5 9 "a b"); lia.
Defined.

Section Partition.
Import PyStr Listing Props.
Context `{Platform}.

Lemma windows_concat {A} (n : nat) (l : list A) (k : nat) :
  concat ((λ i, take n (drop (i * n) l)) <$> seq 0 k) = take (k * n) l.
Proof.
  induction k as [|k IH]; [done|].
  rewrite seq_S, fmap_app, concat_app, IH. cbn [fmap list_fmap concat plus].
  rewrite app_nil_r. replace (S k * n)%nat with (k * n + n)%nat by lia.
  rewrite <- (take_drop (k * n) (take (k * n + n) l)).
  rewrite take_take, Nat.min_l by lia. f_equal.
  by rewrite take_drop_commute.
Qed.

(** X3.  The pages partition the listing: the windows that
    [list_directory] selects for the pages [1 .. total_pages], put
    one after the other, are the whole sorted list of matching names,
    so every match is on exactly one page. *)
Theorem pages_partition_listing (entries : list string) (search : string) :
  let total_pages := (select_page entries 1 search).2 in
  concat ((λ P, (select_page entries P search).1.1) <$> range 1 (total_pages + 1))
  = sort_by lower (List.filter (λ e, contains search (lower e)) entries).
Proof.
  cbv zeta. rewrite select_page_eq. cbv zeta. cbn [snd].
  set (listing := sort_by lower _).
  set (total := Z.max 1 (ceil_div (Z.of_nat (length listing)) 20)).
  assert (Z.of_nat (length listing) ≤ total * 20) as Hlen.
  { unfold total. rewrite ceil_div_eq. Z.div_mod_to_equations. lia. }
  unfold range. replace (total + 1 - 1) with total by lia.
  unfold seqZ. rewrite <- list_fmap_compose.
  transitivity (take (Z.to_nat total * 20) listing); [|apply take_ge; lia].
  rewrite <- windows_concat. f_equal. apply list_fmap_ext.
  intros i x Hx%lookup_seq. destruct Hx as [-> Hi]. unfold compose.
  rewrite select_page_eq. cbv zeta. fold listing total. cbn [fst].
  f_equal. f_equal. lia.
Qed.

End Partition.

(** ** Following a pagination link *)

Section QuoteRoundTrip.
Import PyStr Query.













End QuoteRoundTrip.

Section DecimalRoundTrip.
Import PyStr Query.












End DecimalRoundTrip.

Section LinkRoundTrip.
Import PyStr Query Listing.
Context `{Platform}.


End LinkRoundTrip.


(** ** An entry that vanished *)

Section VanishedEntry.
Import PyStr Fs Listing Props.
Context `{Platform}.

(** X6.  [stat_result] outlives a turn of the loop in
    [generate_html_list].  An entry that no longer exists when its row
    is made (its [stat] raises) is listed as a file with the date
    ["N/A"] and the size of the entry before it; when it is the first
    entry, the method raises [UnboundLocalError]. *)
Theorem vanished_entry_reuses_previous_stat
    (f : gmap string node) (self : SizeCache.handler_id)
    (path a b : string) (rest html_parts : list string)
    (mtime : Z) (data : string) (s : SizeCache.state) :
  f !! joinpath path a = Some (RegFile mtime data) →
  f !! joinpath path b = None →
  render_entries f self path [a; b] html_parts None s
  = (Ok (html_parts
         ++ [generate_file_entry a a
               (human_readable_size (Z.of_nat (String.length data)) 2)
               (strftime (localtime mtime))]
         ++ [generate_file_entry b b
               (human_readable_size (Z.of_nat (String.length data)) 2) "N/A"]), s)
  ∧ render_entries f self path (b :: rest) html_parts None s
    = (Raise UnboundLocalError, s).
Proof.
  intros Ha Hb. cbn [render_entries]. unfold render_entry, stat, is_dir.
  rewrite Ha, Hb. unfold_monad. cbn. by rewrite <- app_assoc.
Qed.

End VanishedEntry.

Lemma vanished_entry_reuses_previous_stat_witness :
  Listing.render_entries (H := Demo.platform true) Demo.tree 1%nat "/srv"
    ["gone"; "Test.txt"] [] None SizeCache.initial
  = (Listing.Raise Listing.UnboundLocalError, SizeCache.initial).
Proof.
  apply (vanished_entry_reuses_previous_stat (H := Demo.platform true) Demo.tree 1%nat
           "/srv" "Test.txt" "gone" ["Test.txt"] [] 10 "hello" SizeCache.initial);
    vm_compute; reflexivity.
Defined.

(** ** The size cache over time *)

Section SizeCacheOverTime.
Import PyStr Fs SizeCache.

(** X7.  The cache key is the directory's own modification time.  As
    long as that is unchanged, the same handler gets the total it
    computed before, after a [stat] and no walk, whatever has changed
    further down in the meantime. *)
Theorem size_cache_stale_until_mtime_changes
    (f f' : gmap string node) (self : handler_id) (path : string)
    (st st' : stat_result) (s : state) :
  stat f path = Some st → stat f' path = Some st' →
  st_mtime st' = st_mtime st →
  let r1 := get_directory_size f self path s in
  let r2 := get_directory_size f' self path r1.2 in
  r2.1 = r1.1 ∧ trace r2.2 = EvStat path :: trace r1.2.
Proof.
  intros Hst Hst' Hm. cbv zeta. unfold get_directory_size. cbv zeta.
  rewrite Hst, Hst', Hm.
  set (s0 := mk_state (lru s) (EvStat path :: trace s)).
  destruct (cached_call_head f self path (st_mtime st) s0) as [c Hc].
  set (r1 := _cached_get_directory_size f self path (st_mtime st) s0) in *.
  unfold _cached_get_directory_size. cbv zeta. cbn [lru trace].
  rewrite Hc, lru_find_head. done.
Qed.

(** X8.  Once the directory's modification time has changed, the key
    is a new one: the next call walks the directory as it is now and
    returns that total. *)
Theorem size_cache_recomputes_on_new_mtime
    (f f' : gmap string node) (self : handler_id) (path : string)
    (st st' : stat_result) (s : state) :
  stat f path = Some st → stat f' path = Some st' →
  st_mtime st' ≠ st_mtime st →
  lru_find (mk_key self path (st_mtime st')) (lru s) = None →
  let r1 := get_directory_size f self path s in
  let r2 := get_directory_size f' self path r1.2 in
  r2.1 = walk_size f' path
  ∧ trace r2.2 = EvWalk path :: EvStat path :: trace r1.2.
Proof.
  intros Hst Hst' Hm Hnone. cbv zeta. unfold get_directory_size. cbv zeta.
  rewrite Hst, Hst'.
  set (s0 := mk_state (lru s) (EvStat path :: trace s)).
  set (r1 := _cached_get_directory_size f self path (st_mtime st) s0).
  rewrite (cached_call_miss f' self path (st_mtime st')); [done|]. cbn [lru].
  subst r1. unfold _cached_get_directory_size. cbv zeta.
  change (lru s0) with (lru s).
  destruct (lru_find (mk_key self path (st_mtime st)) (lru s)) as [v|]; cbn [snd lru].
  - rewrite lru_find_cons_ne by (intros [=]; done). by apply lru_find_none_remove.
  - apply lru_find_none_take. rewrite lru_find_cons_ne by (intros [=]; done). done.
Qed.

Lemma lru_remove_length_found (k : cache_key) (c : list (cache_key * Z)) (v : Z) :
  lru_find k c = Some v → (S (length (lru_remove k c)) ≤ length c)%nat.
Proof.
  unfold lru_find, lru_remove. induction c as [|[k' v'] c IH]; [done|]. cbn.
  case_bool_decide; cbn.
  - intros _. pose proof (filter_length_le (λ e, negb (bool_decide (e.1 = k))) c). lia.
  - intros Hf. specialize (IH Hf). lia.
Qed.

Lemma lru_remove_keys (k : cache_key) (c : list (cache_key * Z)) :
  (k ∉ fst <$> lru_remove k c) ∧ ((fst <$> lru_remove k c) `sublist_of` (fst <$> c)).
Proof.
  unfold lru_remove. induction c as [|[k' v'] c [IH1 IH2]]; cbn.
  - split; [apply not_elem_of_nil|done].
  - case_bool_decide; cbn.
    + split; [done|]. by apply sublist_cons.
    + split; [|by apply sublist_skip]. rewrite not_elem_of_cons. done.
Qed.

(** X9.  The cache never outgrows [maxsize] = 128 entries and never
    holds a key twice: both hold after a call if they held before. *)
Theorem size_cache_stays_bounded
    (f : gmap string node) (self : handler_id) (path : string) (s : state) :
  (length (lru s) ≤ maxsize)%nat → NoDup (fst <$> lru s) →
  let s' := (get_directory_size f self path s).2 in
  (length (lru s') ≤ maxsize)%nat ∧ NoDup (fst <$> lru s').
Proof.
  intros Hlen Hnd. cbv zeta. unfold get_directory_size. cbv zeta.
  destruct (stat f path) as [st|]; [|done].
  unfold _cached_get_directory_size. cbv zeta. cbn [lru].
  destruct (lru_find _ (lru s)) as [v|] eqn:Hfind; cbn [snd lru].
  - split.
    + apply lru_remove_length_found in Hfind. cbn [length]. lia.
    + rewrite fmap_cons. cbn [fst].
      destruct (lru_remove_keys (mk_key self path (st_mtime st)) (lru s)) as [Hk Hsub].
      apply NoDup_cons. split; [done|]. eapply sublist_NoDup; [exact Hnd|exact Hsub].
  - split.
    + rewrite length_take. unfold maxsize. lia.
    + rewrite fmap_take. eapply sublist_NoDup; [|apply sublist_take].
      rewrite fmap_cons. apply NoDup_cons. split; [|done].
      intros [[k v] [Hk He]]%list_elem_of_fmap. cbn in Hk. subst k.
      rewrite lru_find_none in Hfind. by apply (Hfind _ He).
Qed.

End SizeCacheOverTime.

Import Fs SizeCache.

Lemma size_cache_stale_until_mtime_changes_witness :
  let f' := <["/srv/alpha/deep/more.txt" := RegFile 70 "0123456789"]> Demo.tree in
  let r1 := get_directory_size Demo.tree 1%nat "/srv/alpha" initial in
  let r2 := get_directory_size f' 1%nat "/srv/alpha" r1.2 in
  r2.1 = 12 ∧ walk_size f' "/srv/alpha" = 22.
Proof.
  cbv zeta. split; [|vm_compute; reflexivity].
  destruct (size_cache_stale_until_mtime_changes Demo.tree
              (<["/srv/alpha/deep/more.txt" := RegFile 70 "0123456789"]> Demo.tree)
              1%nat "/srv/alpha" (mk_stat 20 0) (mk_stat 20 0) initial)
    as [Hv _]; [vm_compute; reflexivity..|].
  cbv zeta in Hv. rewrite Hv. vm_compute. reflexivity.
Defined.

Lemma size_cache_recomputes_on_new_mtime_witness :
  let f' := <["/srv/alpha" := Directory 21]>
              (<["/srv/alpha/more.txt" := RegFile 70 "0123456789"]> Demo.tree) in
  let r1 := get_directory_size Demo.tree 1%nat "/srv/alpha" initial in
  (get_directory_size f' 1%nat "/srv/alpha" r1.2).1 = 22.
Proof.
  cbv zeta.
  destruct (size_cache_recomputes_on_new_mtime Demo.tree
              (<["/srv/alpha" := Directory 21]>
                 (<["/srv/alpha/more.txt" := RegFile 70 "0123456789"]> Demo.tree))
              1%nat "/srv/alpha" (mk_stat 20 0) (mk_stat 21 0) initial)
    as [Hv _]; [vm_compute; reflexivity| vm_compute; reflexivity |
                discriminate | reflexivity |].
  cbv zeta in Hv. rewrite Hv. vm_compute. reflexivity.
Defined.

Lemma size_cache_stays_bounded_witness :
  let s' := (get_directory_size Demo.tree 1%nat "/srv/alpha" initial).2 in
  (length (lru s') ≤ maxsize)%nat ∧ NoDup (fst <$> lru s').
Proof.
  apply (size_cache_stays_bounded Demo.tree 1%nat "/srv/alpha" initial).
  - unfold maxsize. cbn. lia.
  - apply NoDup_nil_2.
Defined.

(** ** The walk *)

Section WalkFacts.
Import PyStr Fs SizeCache.

Lemma filter_perm {A} (g : A → bool) (l l' : list A) :
  l ≡ₚ l' → List.filter g l ≡ₚ List.filter g l'.
Proof.
  induction 1 as [|x l l' _ IH|x y l|l l' l'' _ IH1 _ IH2]; cbn.
  - done.
  - destruct (g x); [by constructor|done].
  - destruct (g x), (g y); try done. apply perm_swap.
  - by etrans.
Qed.

Lemma sum_files_perm (c : string → bool) (v : string → Z) (l l' : list string) (a : Z) :
  l ≡ₚ l' →
  foldl (λ total fp, if c fp then total + v fp else total) a l
  = foldl (λ total fp, if c fp then total + v fp else total) a l'.
Proof.
  intros Hp. revert a.
  induction Hp as [|x l l' _ IH|x y l|l l' l'' _ IH1 _ IH2]; intros a; cbn.
  - done.
  - apply IH.
  - f_equal. destruct (c x), (c y); lia.
  - rewrite IH1. apply IH2.
Qed.

Lemma sum_files_ext (c c' : string → bool) (v v' : string → Z) (l : list string) (a : Z) :
  (∀ fp, fp ∈ l → c fp = c' fp ∧ v fp = v' fp) →
  foldl (λ total fp, if c fp then total + v fp else total) a l
  = foldl (λ total fp, if c' fp then total + v' fp else total) a l.
Proof.
  revert a. induction l as [|x l IH]; intros a Hall; [done|]. cbn.
  destruct (Hall x) as [-> ->]; [by left|]. apply IH.
  intros fp Hfp. apply Hall. by right.
Qed.

Lemma sum_files_shift (c : string → bool) (v : string → Z) (l : list string) (a : Z) :
  foldl (λ total fp, if c fp then total + v fp else total) a l
  = a + foldl (λ total fp, if c fp then total + v fp else total) 0 l.
Proof.
  revert a. induction l as [|x l IH]; intros a; cbn; [lia|].
  rewrite IH, (IH (if c x then 0 + v x else 0)). destruct (c x); lia.
Qed.

(** X10.  What the walk counts: a new regular file anywhere below
    the directory adds its length in bytes to the total; a new
    directory, or a new entry anywhere else, adds nothing. *)
Theorem walk_size_counts_new_entry
    (f : gmap string node) (dir p : string) (n : node) :
  f !! p = None →
  walk_size (<[p := n]> f) dir
  = walk_size f dir
    + match relative_to dir p, n with
      | Some _, RegFile _ data => Z.of_nat (String.length data)
      | _, _ => 0
      end.
Proof.
  intros Hfresh. unfold walk_size, rglob.
  rewrite (sum_files_perm _ _ _
             (List.filter (λ q, bool_decide (is_Some (relative_to dir q)))
                (p :: (map_to_list f).*1))).
  2:{ apply filter_perm. rewrite map_to_list_insert by done. done. }
  assert (∀ fp, fp ∈ List.filter (λ q, bool_decide (is_Some (relative_to dir q)))
                       (map_to_list f).*1 →
                is_file (<[p := n]> f) fp = is_file f fp
                ∧ default 0 (st_size <$> stat (<[p := n]> f) fp)
                  = default 0 (st_size <$> stat f fp)) as Hsame.
  { intros fp Hfp. apply list_elem_of_In, filter_In in Hfp as [Hfp _].
    apply list_elem_of_In, list_elem_of_fmap in Hfp as [[q x] [-> Hq]].
    apply elem_of_map_to_list in Hq. cbn.
    assert (q ≠ p) by (intros ->; congruence).
    unfold is_file, stat. by rewrite lookup_insert_ne. }
  cbn [List.filter]. case_bool_decide as Hbelow.
  - destruct Hbelow as [rel Hrel]. rewrite Hrel. cbn [foldl].
    rewrite sum_files_shift, (sum_files_ext _ _ _ _ _ _ Hsame).
    unfold is_file, stat. rewrite lookup_insert_eq. destruct n; cbn; lia.
  - rewrite (sum_files_ext _ _ _ _ _ _ Hsame).
    destruct (relative_to dir p); [by destruct Hbelow|]. lia.
Qed.

End WalkFacts.

Lemma walk_size_counts_new_entry_witness :
  walk_size (<["/srv/alpha/deep/more.txt" := RegFile 70 "0123456789"]> Demo.tree)
    "/srv/alpha" = 22.
Proof.
  rewrite (walk_size_counts_new_entry Demo.tree "/srv/alpha"
             "/srv/alpha/deep/more.txt" (RegFile 70 "0123456789"));
    vm_compute; reflexivity.
Defined.

(** ** The viewers *)

Section CountFacts.
Import PyStr Counting.

Lemma count_char_app (c : ascii) (a b : string) :
  count_char c (a +:+ b) = (count_char c a + count_char c b)%nat.
Proof.
  induction a as [|x a IH]; [reflexivity|].
  rewrite append_cons. cbn [count_char]. rewrite IH. lia.
Qed.

Lemma count_char_absent (c : ascii) (s : string) :
  has_char c s = false → count_char c s = 0%nat.
Proof.
  induction s as [|x s IH]; [done|]. cbn.
  intros [-> Hs]%orb_false_iff. by rewrite IH.
Qed.

Lemma count_char_replace_char (c old : ascii) (new s : string) :
  Ascii.eqb old c = false → count_char c new = 0%nat →
  count_char c (replace_char old new s) = count_char c s.
Proof.
  intros Hne Hnew. induction s as [|x s IH]; [done|]. cbn [replace_char].
  destruct (Ascii.eqb x old) eqn:E.
  - apply Ascii.eqb_eq in E as ->. rewrite count_char_app, Hnew, IH. cbn.
    by rewrite Hne.
  - cbn. by rewrite IH.
Qed.

Lemma count_char_escape_text (s : string) :
  count_char dquote (escape s false) = count_char dquote s.
Proof.
  unfold escape. by rewrite !count_char_replace_char.
Qed.

End CountFacts.

Ltac name_literals :=
  repeat match goal with
         | |- context [String ?a ?s] => generalize (String a s); intro
         end.

Section Viewers.
Import PyStr Query Fs Listing Streamer Props Counting.
Context `{Platform}.

(** X11.  A content fetch for something that is not a regular file
    is answered 404, with or without [render=html], whether or not the
    Markdown library is there. *)
Theorem content_fetch_of_missing_file
    (f : gmap string node) (request_path path mime_type : string) :
  first_value (query_components request_path) "action" = Some "get_content" →
  is_file f path = false →
  handle_text_file f request_path path mime_type = SendError 404 "File not found".
Proof.
  intros Hact Hfile. unfold handle_text_file. cbv zeta.
  rewrite bool_decide_eq_true_2 by done.
  destruct (_ && _ && _) eqn:E.
  - apply andb_true_iff in E as [[_ Hmd]%andb_true_iff _].
    unfold _serve_file_content_as_html. by rewrite Hmd, Hfile.
  - unfold _serve_file_content. by rewrite Hfile.
Qed.

(** X12.  With the Markdown library there, a [render=html] content
    fetch for a regular [.md] file is answered 200 [text/html] with
    the rendering of the file's text in one piece, or 400 when the
    file is not valid UTF-8. *)
Theorem markdown_render_reply
    (f : gmap string node) (request_path path mime_type : string)
    (mtime : Z) (data : string) :
  first_value (query_components request_path) "action" = Some "get_content" →
  first_value (query_components request_path) "render" = Some "html" →
  MARKDOWN_AVAILABLE = true →
  lower (path_suffix path) = ".md" →
  f !! path = Some (RegFile mtime data) →
  handle_text_file f request_path path mime_type
  = if utf8_valid data
    then Response 200
           [("Content-type", "text/html; charset=utf-8"); ("Cache-Control", "no-cache")]
           [markdown data]
    else SendError 400 "File encoding error".
Proof.
  intros Hact Hrender Hmd Hsuf Hf. unfold handle_text_file. cbv zeta.
  rewrite !bool_decide_eq_true_2 by done. rewrite Hmd. cbn [andb].
  unfold _serve_file_content_as_html, is_file, read_bytes. rewrite Hmd, Hf. cbn.
  by destruct (utf8_valid data).
Qed.

Lemma markdown_viewer_count (c : ascii) (filename raw_url : string) :
  count_char c (MARKDOWN_VIEWER_TEMPLATE filename raw_url)
  = (count_char c (MARKDOWN_VIEWER_TEMPLATE "" "")
     + 2 * count_char c filename + 3 * count_char c raw_url)%nat.
Proof.
  unfold MARKDOWN_VIEWER_TEMPLATE. name_literals.
  rewrite !count_char_app. cbn [count_char]. lia.
Qed.

Lemma code_viewer_count (c : ascii)
    (filename raw_url static_dir enable_highlight chunk_size : string) :
  count_char c (CODE_VIEW_FRAME_TEMPLATE filename raw_url static_dir
                  enable_highlight chunk_size)
  = (count_char c (CODE_VIEW_FRAME_TEMPLATE "" "" static_dir enable_highlight chunk_size)
     + 2 * count_char c filename + 2 * count_char c raw_url)%nat.
Proof.
  unfold CODE_VIEW_FRAME_TEMPLATE. name_literals.
  rewrite !count_char_app. cbn [count_char]. lia.
Qed.

(** X13.  The Markdown viewer page keeps its own markup whatever the
    file is called and whatever the request path is: it has as many
    [<] and as many [>] as the bare template, and the only double
    quotes beyond the template's are those of the file name, which
    stands in text. *)
Theorem markdown_viewer_markup_fixed
    (f : gmap string node) (request_path path mime_type : string) :
  first_value (query_components request_path) "action" ≠ Some "get_content" →
  MARKDOWN_AVAILABLE = true →
  lower (path_suffix path) = ".md" →
  ∃ page,
    handle_text_file f request_path path mime_type
    = Response 200 [("Content-type", "text/html; charset=utf-8")] [page]
    ∧ count_char "<" page = count_char "<" (MARKDOWN_VIEWER_TEMPLATE "" "")
    ∧ count_char ">" page = count_char ">" (MARKDOWN_VIEWER_TEMPLATE "" "")
    ∧ count_char dquote page
      = (count_char dquote (MARKDOWN_VIEWER_TEMPLATE "" "")
         + 2 * count_char dquote (path_name path))%nat.
Proof.
  intros Hact Hmd Hsuf. unfold handle_text_file. cbv zeta.
  rewrite bool_decide_eq_false_2 by done.
  rewrite bool_decide_eq_true_2 by done. rewrite Hmd. cbn [andb].
  eexists. split; [reflexivity|].
  unfold _generate_markdown_viewer_html.
  rewrite !(markdown_viewer_count _ (escape _ _) (escape _ _)).
  set (name := path_name path). set (url := hd "" (split_on "?" request_path)).
  destruct (escape_neutralises name false) as (Hn1 & Hn2 & _).
  destruct (escape_neutralises url true) as (Hu1 & Hu2 & Hu3).
  destruct (Hu3 eq_refl) as [Hu4 _].
  rewrite !(count_char_absent _ _ Hn1), !(count_char_absent _ _ Hn2),
    !(count_char_absent _ _ Hu1), !(count_char_absent _ _ Hu2),
    !(count_char_absent _ _ Hu4), count_char_escape_text.
  repeat split; lia.
Qed.

(** X14.  The code viewer page, which every other previewable file
    gets, holds the request path up to its [?] twice and as it came:
    each character occurs in the page as often as in the page made
    for an empty path, plus twice its occurrences in the path.  Only
    the file name is escaped there. *)
Theorem code_viewer_embeds_url_verbatim
    (f : gmap string node) (request_path path mime_type : string) :
  first_value (query_components request_path) "action" ≠ Some "get_content" →
  lower (path_suffix path) ≠ ".md" ∨ MARKDOWN_AVAILABLE = false →
  let raw_url := hd "" (split_on "?" request_path) in
  ∃ page,
    handle_text_file f request_path path mime_type
    = Response 200 [("Content-type", "text/html; charset=utf-8")] [page]
    ∧ (∀ c, count_char c page
            = (count_char c (CODE_VIEW_FRAME_TEMPLATE (escape (path_name path) false) ""
                               STATIC_DIR_NAME
                               (if ENABLE_SYNTAX_HIGHLIGHTING then "true" else "false")
                               (str_of_int FILE_CHUNK_SIZE))
               + 2 * count_char c raw_url)%nat).
Proof.
  intros Hact Hmd. cbv zeta. unfold handle_text_file. cbv zeta.
  rewrite bool_decide_eq_false_2 by done.
  assert (bool_decide (lower (path_suffix path) = ".md") && MARKDOWN_AVAILABLE = false)
    as ->.
  { destruct Hmd as [Hmd|Hmd]; [by rewrite bool_decide_eq_false_2|].
    by rewrite Hmd, andb_false_r. }
  eexists. split; [reflexivity|].
  intros c. rewrite (code_viewer_count c (escape _ _) (hd "" _)).
  rewrite (code_viewer_count c (escape _ _) ""). cbn [count_char]. lia.
Qed.

End Viewers.

Import PyStr Query Listing Streamer Counting.

Lemma content_fetch_of_missing_file_witness :
  handle_text_file (H := Demo.platform true) Demo.tree
    "/gone.md?action=get_content&render=html" "/srv/gone.md" "text/plain"
  = SendError 404 "File not found".
Proof.
  apply (content_fetch_of_missing_file (H := Demo.platform true));
    vm_compute; reflexivity.
Defined.

Lemma markdown_render_reply_witness :
  handle_text_file (H := Demo.platform true) Demo.tree
    "/alpha/notes.md?action=get_content&render=html" "/srv/alpha/notes.md" "text/plain"
  = Response 200
      [("Content-type", "text/html; charset=utf-8"); ("Cache-Control", "no-cache")]
      ["<p># title</p>"].
Proof.
  rewrite (markdown_render_reply (H := Demo.platform true) Demo.tree
             "/alpha/notes.md?action=get_content&render=html" "/srv/alpha/notes.md"
             "text/plain" 40 "# title"); vm_compute; reflexivity.
Defined.

Lemma markdown_viewer_markup_fixed_witness :
  ∃ page,
    handle_text_file (H := Demo.platform true) Demo.tree
      "/alpha/<i>.md" "/srv/alpha/<i>.md" "text/plain"
    = Response 200 [("Content-type", "text/html; charset=utf-8")] [page]
    ∧ count_char "<" page = count_char "<" (MARKDOWN_VIEWER_TEMPLATE "" "").
Proof.
  destruct (markdown_viewer_markup_fixed (H := Demo.platform true) Demo.tree
              "/alpha/<i>.md" "/srv/alpha/<i>.md" "text/plain")
    as (page & Hpage & Hlt & _); [vm_compute; discriminate|reflexivity|reflexivity|].
  by exists page.
Defined.

Lemma code_viewer_embeds_url_verbatim_witness :
  ∃ page,
    handle_text_file (H := Demo.platform true) Demo.tree
      "/Test.txt<b>" "/srv/Test.txt" "text/plain"
    = Response 200 [("Content-type", "text/html; charset=utf-8")] [page]
    ∧ count_char "<" page
      = (count_char "<" (CODE_VIEW_FRAME_TEMPLATE "Test.txt" "" "static" "true" "16384")
         + 2)%nat.
Proof.
  destruct (code_viewer_embeds_url_verbatim (H := Demo.platform true) Demo.tree
              "/Test.txt<b>" "/srv/Test.txt" "text/plain")
    as (page & Hpage & Hcount); [vm_compute; discriminate|left; vm_compute; discriminate|].
  exists page. split; [exact Hpage|]. apply (Hcount "<"%char).
Defined.

(** ** What the archive holds *)

Section ArchiveContent.
Import PyStr Fs Archive Props.
Context `{Platform}.






Lemma write_members_no_fault (sc : scenario) (directory temp : string)
    (paths : list string) (i : nat) (members : list (string * string)) (w : world) :
  build_fault sc = None →
  ∃ ms w', write_members sc directory temp paths i members w = inr (ms, w').
Proof.
  intros Hsc. revert i members w.
  induction paths as [|p paths IH]; intros i members w; [by eexists _, _|].
  cbn [write_members]. unfold member_fault. rewrite Hsc.
  destruct (is_file (files w) p); apply IH.
Qed.

Lemma create_zip_no_fault (sc : scenario) (directory zip_name : string) (w : world) :
  build_fault sc = None →
  files w !! zip_name = None →
  path_name zip_name ≠ "" →
  ∃ members w',
    create_zip sc directory zip_name w = (true, w')
    ∧ files w' !! zip_name = Some (RegFile (now sc) (archive_bytes members)).
Proof.
  intros Hsc Hnone Hname.
  unfold create_zip, exists_.
  rewrite bool_decide_eq_false_2 by (rewrite Hnone; by intros [? ?]).
  pose proof (build_spec sc directory zip_name w) as Hb.
  unfold build in *. cbv zeta in *.
  destruct (with_suffix zip_name _) as [temp|] eqn:Htemp.
  2:{ unfold with_suffix in Htemp. by rewrite bool_decide_eq_false_2 in Htemp. }
  rewrite Hsc in *.
  set (w1 := do_op sc (OpCreate temp) w) in *.
  destruct (write_members_no_fault sc directory temp (rglob (files w1) directory)
              0 [] w1 Hsc) as (ms & w2 & Hw2).
  rewrite Hw2 in *.
  destruct Hb as (temp' & w3 & mtime & members & [= <-] & _ & Hc & Hw').
  exists ms. eexists. split; [reflexivity|].
  destruct (write_members_content sc temp directory (rglob (files w1) directory)
              0 [] ms w1 w2 (now sc)) as [t2 Hc2];
    [by cbn; rewrite lookup_insert_eq|exact Hw2|].
  cbn [do_op files apply_op]. rewrite Hc2, lookup_insert_eq.
  by rewrite lookup_insert_eq.
Qed.



End ArchiveContent.

Import Fs Archive.


(** ** The request router *)

Section RouterFacts.
Import PyStr Query Fs Listing Streamer Archive Props Router.
Context `{Platform} `{Site}.

Lemma send_zip_of_file (f : gmap string node) (p : string) (mtime : Z) (data : string) :
  f !! p = Some (RegFile mtime data) →
  send_zip f p
  = Response 200
      [("Content-type", "application/zip");
       ("Content-Length", str_of_int (Z.of_nat (String.length data)))]
      (copy_chunks COPY_BUFSIZE data []).
Proof. intros Hf. unfold send_zip, stat, read_bytes. by rewrite Hf. Qed.

(** X16.  A request for [<directory>.zip], with nothing at that path
    yet and no fault in the build, builds the archive and sends it:
    200 [application/zip], a [Content-Length] that is the archive's
    length, and a body whose pieces put together are the archive now
    stored at the target.  From then on the stored file is what is
    sent: any later request for the same path gets the same reply and
    writes nothing, whatever the directory holds by then. *)
Theorem do_GET_builds_then_reuses_archive
    (sc : scenario) (request_path : string) (w : world) :
  let zip := translate_path request_path in
  String.prefix ("/" +:+ STATIC_DIR_NAME +:+ "/") request_path = false →
  ends_with ".zip" request_path = true →
  files w !! zip = None →
  is_dir (files w)
    (translate_path (str_take (String.length request_path - 4) request_path)) = true →
  build_fault sc = None →
  path_name zip ≠ "" →
  ∃ members w',
    let r := Response 200
               [("Content-type", "application/zip");
                ("Content-Length",
                 str_of_int (Z.of_nat (String.length (archive_bytes members))))]
               (copy_chunks COPY_BUFSIZE (archive_bytes members) []) in
    do_GET sc request_path w = (Replied r, w')
    ∧ join (copy_chunks COPY_BUFSIZE (archive_bytes members) []) = archive_bytes members
    ∧ files w' !! zip = Some (RegFile (now sc) (archive_bytes members))
    ∧ ∀ sc2 w2, files w2 !! zip = files w' !! zip →
                do_GET sc2 request_path w2 = (Replied r, w2).
Proof.
  intros zip Hstatic Hzip Hnone Hdir Hsc Hname.
  destruct (create_zip_no_fault sc
              (translate_path (str_take (String.length request_path - 4) request_path))
              zip w Hsc Hnone Hname) as (members & w' & Hcz & Hw').
  exists members, w'. cbv zeta.
  split; [|split; [by apply copy_chunks_join|split; [done|]]].
  - unfold do_GET. cbv zeta. rewrite Hstatic, Hzip. fold zip.
    unfold is_file at 1. rewrite Hnone. cbn [andb]. rewrite Hdir, Hcz.
    unfold is_file. rewrite Hw'. by erewrite send_zip_of_file.
  - intros sc2 w2 Hsame. rewrite Hw' in Hsame.
    unfold do_GET. cbv zeta. rewrite Hstatic, Hzip. fold zip.
    unfold is_file. rewrite Hsame. cbn [andb]. by erewrite send_zip_of_file.
Qed.



(** X19.  A content fetch through the router.  For a regular file
    that counts as text (by its guessed type or by its extension), a
    request with [action=get_content] and no [render=html] is
    answered by [do_GET] with 200 [text/plain] and the file's bytes in
    chunks that put together are the file; nothing is written. *)
Theorem do_GET_streams_previewable_file
    (sc : scenario) (request_path : string) (w : world) (mtime : Z) (data : string) :
  let full_path := translate_path request_path in
  String.prefix ("/" +:+ STATIC_DIR_NAME +:+ "/") request_path = false →
  ends_with ".zip" request_path = false →
  String.prefix "text/" (get_content_type full_path) = true
  ∨ get_content_type full_path ∈ ["application/json"; "application/xml"]
  ∨ lower (path_suffix full_path) ∈ previewable_extensions →
  files w !! full_path = Some (RegFile mtime data) →
  first_value (query_components request_path) "action" = Some "get_content" →
  first_value (query_components request_path) "render" ≠ Some "html" →
  do_GET sc request_path w
  = (Replied (Response 200
                [("Content-type", "text/plain"); ("Content-Encoding", "identity");
                 ("Cache-Control", "no-cache")]
                (copy_chunks FILE_CHUNK_SIZE data [])), w)
  ∧ join (copy_chunks FILE_CHUNK_SIZE data []) = data.
Proof.
  intros full_path Hstatic Hzip Htext Hf Hact Hrender.
  split; [|by apply copy_chunks_join].
  unfold do_GET. cbv zeta. rewrite Hstatic, Hzip. fold full_path. cbn [andb].
  assert (String.prefix "text/" (get_content_type full_path)
          || bool_decide (get_content_type full_path
                          ∈ ["application/json"; "application/xml"])
          || bool_decide (lower (path_suffix full_path) ∈ previewable_extensions)
          = true) as ->.
  { destruct Htext as [->|[Ht|Ht]]; [done| |].
    - by rewrite (bool_decide_eq_true_2 _ Ht), orb_true_r.
    - by rewrite (bool_decide_eq_true_2 _ Ht), orb_true_r. }
  unfold is_file. rewrite Hf. cbn [andb].
  unfold handle_text_file. cbv zeta.
  rewrite bool_decide_eq_true_2 by done.
  rewrite (bool_decide_eq_false_2 _ Hrender). cbn [andb].
  by erewrite serve_file_content_regular.
Qed.

End RouterFacts.

Import Router.

Lemma do_GET_builds_then_reuses_archive_witness :
  ∃ members w',
    do_GET (H := Demo.platform true) (H0 := DemoSite.site) (mk_scenario None false 99)
      "/alpha.zip" (mk_world Demo.tree [])
    = (Replied (Response 200
                  [("Content-type", "application/zip");
                   ("Content-Length",
                    str_of_int (Z.of_nat (String.length
                      (archive_bytes (H := Demo.platform true) members))))]
                  (copy_chunks COPY_BUFSIZE
                     (archive_bytes (H := Demo.platform true) members) [])), w')
    ∧ files w' !! "/srv/alpha.zip"
      = Some (RegFile 99 (archive_bytes (H := Demo.platform true) members)).
Proof.
  destruct (do_GET_builds_then_reuses_archive (H := Demo.platform true)
              (H0 := DemoSite.site) (mk_scenario None false 99) "/alpha.zip"
              (mk_world Demo.tree []))
    as (members & w' & Hget & _ & Hz & _);
    [vm_compute; reflexivity..|vm_compute; discriminate|].
  exists members, w'. split; [exact Hget|exact Hz].
Defined.



Lemma do_GET_streams_previewable_file_witness :
  do_GET (H := Demo.platform true) (H0 := DemoSite.site) (mk_scenario None false 99)
    "/TABLE.csv?action=get_content" (mk_world Demo.tree [])
  = (Replied (Response 200
                [("Content-type", "text/plain"); ("Content-Encoding", "identity");
                 ("Cache-Control", "no-cache")]
                (copy_chunks FILE_CHUNK_SIZE "a,b" [])), mk_world Demo.tree []).
Proof.
  apply (do_GET_streams_previewable_file (H := Demo.platform true) (H0 := DemoSite.site)
           (mk_scenario None false 99) "/TABLE.csv?action=get_content"
           (mk_world Demo.tree []) 30 "a,b").
  - vm_compute. reflexivity.
  - vm_compute. reflexivity.
  - right. right. vm_compute. set_solver.
  - vm_compute. reflexivity.
  - vm_compute. reflexivity.
  - vm_compute. discriminate.
Defined.

(** ** Start-up *)

Section PortSearch.
Import PyStr Fs Streamer Lifecycle.

Lemma serve_loop_step (bind : Z → bind_result) (highlighting : bool) (port : Z) :
  serve_loop bind highlighting port
  = if (port <? 0) || (65535 <? port) then Raised
    else match bind port with
         | Bound => Serving port highlighting
         | OtherError => Raised
         | AddressInUse =>
             if 65535 <? port + 1 then Exit 1
             else serve_loop bind highlighting (port + 1)
         end.
Proof.
  funelim (serve_loop bind highlighting port); clear Heqcall;
    repeat match goal with
           | E : ?l = _ |- context [?l] => rewrite E
           end; done.
Qed.

(** Ports that are in use are passed over. *)
Lemma serve_loop_in_use (bind : Z → bind_result) (highlighting : bool) (port : Z) (n : nat) :
  0 ≤ port → port + Z.of_nat n ≤ 65535 →
  (∀ q, port ≤ q < port + Z.of_nat n → bind q = AddressInUse) →
  serve_loop bind highlighting port
  = serve_loop bind highlighting (port + Z.of_nat n).
Proof.
  revert port. induction n as [|n IH]; intros port Hlo Hhi Hbusy.
  - by rewrite Z.add_0_r.
  - rewrite serve_loop_step.
    destruct (Z.ltb_spec port 0); [lia|]. destruct (Z.ltb_spec 65535 port); [lia|].
    cbn [orb]. rewrite Hbusy by lia.
    destruct (Z.ltb_spec 65535 (port + 1)); [lia|].
    rewrite IH; [f_equal; lia|lia|lia|]. intros q Hq. apply Hbusy. lia.
Qed.

Ltac port_in_range :=
  match goal with
  | E : (_ <? 0) || (65535 <? _) = false |- _ =>
      apply orb_false_iff in E as [?%Z.ltb_ge ?%Z.ltb_ge]
  end.

Lemma serve_loop_serving (bind : Z → bind_result) (highlighting h' : bool) (port p : Z) :
  serve_loop bind highlighting port = Serving p h' →
  h' = highlighting ∧ 0 ≤ port ≤ p ∧ p ≤ 65535 ∧ bind p = Bound
  ∧ ∀ q, port ≤ q < p → bind q = AddressInUse.
Proof.
  funelim (serve_loop bind highlighting port); clear Heqcall; try done.
  - intros [= <- <-]. port_in_range. repeat split; try done; try lia.
  - intros Hs. port_in_range.
    match goal with
    | IH : ∀ h q, serve_loop _ _ _ = _ → _ |- _ =>
        destruct (IH _ _ Hs) as (-> & Hr & Hp & Hb & Hbusy)
    end.
    repeat split; try done; try lia.
    intros q Hq. destruct (decide (q = port)) as [->|]; [done|]. apply Hbusy. lia.
Qed.

(** X20.  The port search ends up serving on port [p] exactly when
    [p] is the first port from the initial one on, within
    [0 .. 65535], where binding succeeds, every port before it having
    been in use; the highlighting flag is passed through. *)
Theorem serve_loop_binds_first_free_port
    (bind : Z → bind_result) (highlighting h' : bool) (port p : Z) :
  serve_loop bind highlighting port = Serving p h'
  ↔ h' = highlighting ∧ 0 ≤ port ≤ p ∧ p ≤ 65535 ∧ bind p = Bound
    ∧ ∀ q, port ≤ q < p → bind q = AddressInUse.
Proof.
  split; [apply serve_loop_serving|].
  intros (-> & Hr & Hp & Hb & Hbusy).
  rewrite (serve_loop_in_use bind highlighting port (Z.to_nat (p - port)));
    [|lia|lia|intros q Hq; apply Hbusy; lia].
  replace (port + Z.of_nat (Z.to_nat (p - port))) with p by lia.
  rewrite serve_loop_step.
  destruct (Z.ltb_spec p 0); [lia|]. destruct (Z.ltb_spec 65535 p); [lia|].
  cbn [orb]. by rewrite Hb.
Qed.

(** X21.  The port search gives up, with exit status 1, exactly when
    every port from the initial one up to 65535 is in use. *)
Theorem serve_loop_gives_up_at_last_port
    (bind : Z → bind_result) (highlighting : bool) (port code : Z) :
  serve_loop bind highlighting port = Exit code
  ↔ code = 1 ∧ 0 ≤ port ≤ 65535 ∧ ∀ q, port ≤ q ≤ 65535 → bind q = AddressInUse.
Proof.
  split.
  - funelim (serve_loop bind highlighting port); clear Heqcall; try done.
    + intros [= <-]. port_in_range.
      pose proof Hfull as Hlast. apply Z.ltb_lt in Hlast.
      repeat split; try lia. intros q Hq. by replace q with port by lia.
    + intros Hs. port_in_range.
      match goal with
      | IH : ∀ c, serve_loop _ _ _ = _ → _ |- _ =>
          destruct (IH _ Hs) as (-> & Hr & Hbusy)
      end.
      repeat split; try lia.
      intros q Hq. destruct (decide (q = port)) as [->|]; [done|]. apply Hbusy. lia.
  - intros (-> & Hr & Hbusy).
    rewrite (serve_loop_in_use bind highlighting port (Z.to_nat (65535 - port)));
      [|lia|lia|intros q Hq; apply Hbusy; lia].
    replace (port + Z.of_nat (Z.to_nat (65535 - port))) with 65535 by lia.
    rewrite serve_loop_step. cbn. by rewrite Hbusy by lia.
Qed.

Context `{Platform}.

(** X22.  When [start_serve] gets to serve, the shared path is a
    directory; syntax highlighting is on only if the flag was on and
    the static directory is there; and the port is the first one from
    [initial_port] on where binding succeeded, all ports before it
    having been in use. *)
Theorem start_serve_serving
    (f : gmap string node) (bind : Z → bind_result)
    (desktop shared_directory : string) (initial_port p : Z) (highlighting : bool) :
  start_serve f bind desktop shared_directory initial_port = Serving p highlighting →
  let shared := if bool_decide (shared_directory = "") then desktop
                else shared_directory in
  is_dir f shared = true
  ∧ highlighting = is_dir f (joinpath shared STATIC_DIR_NAME) && ENABLE_SYNTAX_HIGHLIGHTING
  ∧ initial_port ≤ p ≤ 65535
  ∧ bind p = Bound
  ∧ ∀ q, initial_port ≤ q < p → bind q = AddressInUse.
Proof.
  unfold start_serve. cbv zeta.
  set (shared := if bool_decide (shared_directory = "") then desktop else shared_directory).
  destruct (exists_ f shared) eqn:Hex; [|done]. cbn [negb].
  destruct (is_dir f shared) eqn:Hdir; [|done]. cbn [negb].
  intros (-> & Hr & Hp & Hb & Hbusy)%serve_loop_serving.
  split; [done|]. split; [|split; [lia|done]].
  unfold exists_, is_dir.
  destruct (f !! joinpath shared STATIC_DIR_NAME) as [[m d|m]|]; cbn;
    rewrite ?bool_decide_eq_true_2 by (by eexists); done.
Qed.

End PortSearch.

Import Lifecycle.

Lemma start_serve_serving_witness :
  start_serve (H := Demo.platform true) Demo.tree
    (λ q, if q =? 8000 then AddressInUse else Bound) "/home/u/Desktop" "/srv" 8000
  = Serving 8001 false
  ∧ is_dir Demo.tree "/srv" = true.
Proof.
  assert (start_serve (H := Demo.platform true) Demo.tree
            (λ q, if q =? 8000 then AddressInUse else Bound) "/home/u/Desktop" "/srv" 8000
          = Serving 8001 false) as Hs.
  { unfold start_serve. cbv zeta.
    change (if bool_decide ("/srv" = "") then "/home/u/Desktop" else "/srv") with "/srv".
    assert (exists_ Demo.tree "/srv" = true) as -> by (vm_compute; reflexivity).
    assert (is_dir Demo.tree "/srv" = true) as -> by (vm_compute; reflexivity).
    assert (exists_ Demo.tree (joinpath "/srv" Streamer.STATIC_DIR_NAME) = false) as ->
      by (vm_compute; reflexivity).
    cbn [negb orb].
    rewrite (serve_loop_step _ _ 8000). cbn -[serve_loop].
    rewrite (serve_loop_step _ _ 8001). reflexivity. }
  split; [exact Hs|].
  apply (start_serve_serving (H := Demo.platform true) _ _ _ _ _ _ _ Hs).
Defined.
